(** * Monte Carlo option pricing: the statistics gatherers, the payoffs and
      the simulation loop of [monte_carlo], embedded and verified.

    The Python program works on IEEE 754 binary64 numbers ([float]), unbounded
    integers ([Z]) and lists that are shared by reference.  Floats are the
    kernel's primitive floats, lists live in a store of list objects, and
    every method is a function from the receiver's fields and the store to an
    outcome and the new fields and store. *)

From Stdlib Require Import ZArith List Lia Bool String.
From Stdlib Require Import Floats.
From stdpp Require Import base option list.

Local Open Scope Z_scope.

(** ** Python values and the store of list objects *)

(** A reference to a list object: its index in the store. *)
Abbreviation loc := nat (only parsing).

(** What a list cell of this program can hold: a float, an int, or a
    reference to another list (a row of a table is a list inside a list). *)
Inductive pyval : Type :=
  | PyFloat (f : float)
  | PyInt (z : Z)
  | PyRef (l : loc).

(** The store: list objects in allocation order.  A new list gets the next
    index, and no object is ever freed. *)
Abbreviation heap := (list (list pyval)) (only parsing).

(** The exceptions of the run-time system that this code can meet, and
    [Explicit], an exception thrown by a [raise] statement of the program
    with its message.  The program has no [raise] statement. *)
Inductive exn : Type :=
  | ZeroDivisionError
  | ValueError
  | OverflowError
  | IndexError
  | TypeError
  | AttributeError
  | Explicit (what : string).

Inductive result (A : Type) : Type :=
  | Ok (a : A)
  | Raise (e : exn).
Arguments Ok {A} a.
Arguments Raise {A} e.

(** ** Methods: state of the receiver and of the store, with exceptions

    A method of a class with fields [Self] runs on the fields of [self] and on
    the store.  Both survive an exception, as they do in Python. *)
Definition M (Self A : Type) : Type := Self * heap -> result A * (Self * heap).

Definition ret {Self A} (a : A) : M Self A := fun σ => (Ok a, σ).

Definition bind {Self A B} (m : M Self A) (k : A -> M Self B) : M Self B :=
  fun σ => match m σ with
           | (Ok a, σ') => k a σ'
           | (Raise e, σ') => (Raise e, σ')
           end.

Definition raise {Self A} (e : exn) : M Self A := fun σ => (Raise e, σ).

#[global] Instance M_ret {Self} : MRet (M Self) := @ret Self.
#[global] Instance M_bind {Self} : MBind (M Self) := fun A B k m => bind m k.

Definition get_self {Self} : M Self Self := fun σ => (Ok (fst σ), σ).
Definition put_self {Self} (s : Self) : M Self unit := fun σ => (Ok tt, (s, snd σ)).

(** [[v1, ..., vn]]: a list display allocates a new list object. *)
Definition new_list {Self} (vs : list pyval) : M Self loc :=
  fun σ => (Ok (length (snd σ)), (fst σ, snd σ ++ [vs])).

(** The list object that a value refers to, or the error [e] that Python
    gives when a list operation is applied to a number.  (Python has no
    reference to no object; the store gives such a one the same error.) *)
Definition as_list {Self} (e : exn) (v : pyval) : M Self (loc * list pyval) :=
  fun σ => match v with
           | PyRef l => match snd σ !! l with
                        | Some vs => (Ok (l, vs), σ)
                        | None => (Raise e, σ)
                        end
           | _ => (Raise e, σ)
           end.

(** [len(x)] *)
Definition py_len {Self} (x : pyval) : M Self nat :=
  lv ← as_list TypeError x; ret (length (snd lv)).

(** [x[i]]: a negative index counts from the end. *)
Definition py_getitem {Self} (x : pyval) (i : Z) : M Self pyval :=
  lv ← as_list TypeError x;
  let k := if i <? 0 then i + Z.of_nat (length (snd lv)) else i in
  if k <? 0 then raise IndexError
  else match snd lv !! Z.to_nat k with
       | Some v => ret v
       | None => raise IndexError
       end.

(** The list object at [l] gets new cells: every holder of a reference to
    it sees the change. *)
Definition set_list {Self} (l : loc) (vs : list pyval) : M Self unit :=
  fun σ => (Ok tt, (fst σ, <[l := vs]> (snd σ))).

(** [x.append(v)]: the list object is changed in place. *)
Definition py_append {Self} (x v : pyval) : M Self unit :=
  lv ← as_list AttributeError x; set_list (fst lv) (snd lv ++ [v]).

(** [x.copy()]: a new list object with the same cells (a shallow copy). *)
Definition py_copy {Self} (x : pyval) : M Self loc :=
  lv ← as_list AttributeError x; new_list (snd lv).

(** [for i in range(n): body(i)] *)
Fixpoint for_range {Self} (n : nat) (i : nat) (body : nat -> M Self unit) : M Self unit :=
  match n with
  | O => ret tt
  | S n' => body i ;; for_range n' (S i) body
  end.

(** ** Numbers *)

(** [float(n)] for an int [n]: the nearest binary64 number, ties to even.
    (CPython refuses an int of 2^1024 or more with OverflowError; a count of
    paths cannot get there, and this conversion gives infinity instead.) *)
Definition float_of_int (n : Z) : float :=
  SF2Prim (binary_normalize prec emax n 0 false).

(** [x / n] for a float [x] and an int [n]. *)
Definition truediv (x : float) (n : Z) : result float :=
  if n =? 0 then Raise ZeroDivisionError
  else Ok (x / float_of_int n)%float.

(** A float operation that can fail, inside a method. *)
Definition lift_result {Self A} (r : result A) : M Self A := fun σ => (r, σ).

(** ** statistics.py *)

(** [StatisticsMC]: the interface of all statistics accumulators.
    [get_results_so_far] gives a reference to a list of rows. *)
Module StatisticsMC.
Class t (Self : Type) : Type := {
  dump_one_result : float -> M Self unit;
  get_results_so_far : M Self pyval
}.
End StatisticsMC.
Abbreviation StatisticsMC := StatisticsMC.t.

Module StatisticsMean.

Record t : Type := mk { running_sum : float; paths_done : Z }.

(** [__init__] *)
Definition init : t := {| running_sum := 0; paths_done := 0 |}.

Definition dump_one_result (result : float) : M t unit :=
  self ← get_self;
  put_self {| running_sum := running_sum self + result;
              paths_done := paths_done self |};;
  self ← get_self;
  put_self {| running_sum := running_sum self;
              paths_done := paths_done self + 1 |}.

Definition get_results_so_far : M t pyval :=
  self ← get_self;
  mean ← lift_result (truediv (running_sum self) (paths_done self));
  row ← new_list [PyFloat mean];
  rows ← new_list [PyRef row];
  mret (PyRef rows).

#[global] Instance statistics : StatisticsMC t :=
  {| StatisticsMC.dump_one_result := dump_one_result;
     StatisticsMC.get_results_so_far := get_results_so_far |}.

End StatisticsMean.

(** [math.ceil] of an int is the int itself. *)
Definition math_ceil (n : Z) : Z := n.

Module ConvergenceTable.
Section Table.

Context {Inner : Type} `{StatisticsMC Inner}.

Record t : Type := mk {
  stats : Inner;
  results_so_far : pyval;
  stopping_point : Z;
  paths_done : Z
}.

(** A call of a method of [self.stats]: it runs on the fields of the inner
    accumulator and on the same store. *)
Definition on_stats {A} (m : M Inner A) : M t A :=
  fun σ =>
    let '(r, (inner, h)) := m (stats (fst σ), snd σ) in
    (r, (mk inner (results_so_far (fst σ)) (stopping_point (fst σ))
            (paths_done (fst σ)), h)).

(** [__init__]: run by the caller, whatever its own fields are. *)
Definition init {Caller} (stats : Inner) : M Caller t :=
  rows ← new_list [];
  mret {| stats := stats; results_so_far := PyRef rows;
          stopping_point := 2; paths_done := 0 |}.

(** The body of the two loops over [this_result], which differ in the list
    they fill: [this_result[i].append(self.paths_done)], then
    [target.append(this_result[i])].  The row object itself is changed. *)
Definition tag_and_append (this_result target : pyval) (i : nat) : M t unit :=
  row ← py_getitem this_result (Z.of_nat i);
  self ← get_self;
  py_append row (PyInt (paths_done self));;
  row ← py_getitem this_result (Z.of_nat i);
  py_append target row.

Definition dump_one_result (result : float) : M t unit :=
  on_stats (StatisticsMC.dump_one_result result);;
  self ← get_self;
  put_self (mk (stats self) (results_so_far self) (stopping_point self)
               (paths_done self + 1));;
  self ← get_self;
  if paths_done self =? stopping_point self then
    put_self (mk (stats self) (results_so_far self)
                 (math_ceil (stopping_point self * 2)) (paths_done self));;
    this_result ← on_stats StatisticsMC.get_results_so_far;
    n ← py_len this_result;
    for_range n 0 (fun i =>
      self ← get_self;
      tag_and_append this_result (results_so_far self) i)
  else mret tt.

Definition get_results_so_far : M t pyval :=
  self ← get_self;
  tmp ← py_copy (results_so_far self);
  self ← get_self;
  (if negb (paths_done self =? stopping_point self) then
     this_result ← on_stats StatisticsMC.get_results_so_far;
     n ← py_len this_result;
     for_range n 0 (tag_and_append this_result (PyRef tmp))
   else mret tt);;
  mret (PyRef tmp).

#[global] Instance statistics : StatisticsMC t :=
  {| StatisticsMC.dump_one_result := dump_one_result;
     StatisticsMC.get_results_so_far := get_results_so_far |}.

End Table.
Arguments t Inner : clear implicits.
End ConvergenceTable.

(** ** parameters.py *)

Module ParametersConstant.

Record t : Type := mk { constant : float; constant_square : float }.

(** [__init__] *)
Definition init (constant : float) : t :=
  {| constant := constant; constant_square := constant * constant |}.

Definition integral (self : t) (time1 time2 : float) : float :=
  (time2 - time1) * constant self.

Definition integral_square (self : t) (time1 time2 : float) : float :=
  (time2 - time1) * constant_square self.

End ParametersConstant.

(** [Parameters]: the interface of the functions of time. *)
Class Parameters (Self : Type) : Type := {
  integral : Self -> float -> float -> float;
  integral_square : Self -> float -> float -> float
}.

#[global] Instance ParametersConstant_parameters : Parameters ParametersConstant.t :=
  {| integral := ParametersConstant.integral;
     integral_square := ParametersConstant.integral_square |}.

(** ** options.py *)

(** [max(x, 0)] for a float [x]: the int [0] replaces [x] when [0 > x], and
    only then (a NaN stays). *)
Definition max_0 (x : float) : pyval :=
  if (x <? 0)%float then PyInt 0 else PyFloat x.

(** The payoff classes.  [PayOffDoubleDigital] does not call the base
    constructor and has no strike. *)
Inductive PayOff : Type :=
  | PayOffCall (strike : float)
  | PayOffPut (strike : float)
  | PayOffDoubleDigital (lower_level upper_level : float).

(** [calc], by class.  [spot >= upper] on floats is [upper <= spot]. *)
Definition calc (self : PayOff) (spot : float) : pyval :=
  match self with
  | PayOffCall strike => max_0 (spot - strike)
  | PayOffPut strike => max_0 (strike - spot)
  | PayOffDoubleDigital lower_level upper_level =>
      if (spot <=? lower_level)%float then PyInt 0
      else if (upper_level <=? spot)%float then PyInt 0
      else PyInt 1
  end.

Module VanillaOption.

Record t : Type := mk { expiry : float; pay_off : PayOff }.

Definition get_expiry (self : t) : float := expiry self.

Definition calc_pay_off (self : t) (spot : float) : pyval :=
  calc (pay_off self) spot.

End VanillaOption.

(** [x * v] for a float [x]: an int is converted first. *)
Definition float_mul (x : float) (v : pyval) : result float :=
  match v with
  | PyFloat f => Ok (x * f)%float
  | PyInt z => Ok (x * float_of_int z)%float
  | PyRef _ => Raise TypeError
  end.

(** [math.sqrt]: the square root of the C library, and ValueError where it
    gives a NaN for an argument that is a number (a negative one). *)
Definition math_sqrt (x : float) : result float :=
  let r := sqrt x in
  if is_nan r && negb (is_nan x) then Raise ValueError else Ok r.

(** A local object of a function: the body runs with it beside the fields
    of the caller.  The object is handed back with the value of the body; when
    the body raises, the exception leaves the function and the object is out
    of scope. *)
Definition with_local {Self L A} (x : L) (m : M (L * Self) A) : M Self (A * L) :=
  fun σ =>
    let '(r, ((x', s'), h')) := m ((x, fst σ), snd σ) in
    (match r with Ok a => Ok (a, x') | Raise e => Raise e end, (s', h')).

(** A method call on the local object. *)
Definition on_local {Self L A} (m : M L A) : M (L * Self) A :=
  fun σ =>
    let '(r, (x', h')) := m (fst (fst σ), snd σ) in
    (r, ((x', snd (fst σ)), h')).

(** Code of the caller that does not touch the local object. *)
Definition on_caller {Self L A} (m : M Self A) : M (L * Self) A :=
  fun σ =>
    let '(r, (s', h')) := m (snd (fst σ), snd σ) in
    (r, ((fst (fst σ), s'), h')).

(** What the program takes from the run-time system and is not modelled
    further: [math.exp], the C library's exponential with OverflowError when
    the result is out of range, and the module [random]: its state, the state
    that [random.seed] of an int sets, and a draw of [random.gauss(0, 1)]. *)
Class Runtime : Type := {
  math_exp : float -> result float;
  rng : Type;
  random_seed : Z -> rng;
  random_gauss : rng -> float * rng
}.

Section Simulation.

Context {runtime : Runtime}.

Definition seed_random (seed : Z) : M rng unit :=
  put_self (random_seed seed).

Definition gauss_0_1 : M rng float :=
  g ← get_self;
  put_self (snd (random_gauss g));;
  mret (fst (random_gauss g)).

(** [Simulation.option_price]: the fields of this static method's world are
    the gatherer it is given and the random module's state. *)
Definition option_price {Vol Rate Gatherer : Type}
    `{Parameters Vol} `{Parameters Rate} `{StatisticsMC Gatherer}
    (the_option : VanillaOption.t) (spot : float) (vol : Vol) (r : Rate)
    (number_of_paths : Z) (seed : option Z) : M (Gatherer * rng) unit :=
  match seed with
  | Some seed => on_caller (seed_random seed)
  | None => mret tt
  end;;
  let expiry := VanillaOption.get_expiry the_option in
  let variance := integral_square vol 0 expiry in
  root_variance ← lift_result (math_sqrt variance);
  let ito_correction := (-0.5 * variance)%float in
  e ← lift_result (math_exp (integral r 0 expiry + ito_correction));
  let moved_spot := (spot * e)%float in
  discounting ← lift_result (math_exp (- integral r 0 expiry));
  for_range (Z.to_nat number_of_paths) 0 (fun _ =>
    this_gaussian ← on_caller gauss_0_1;
    e ← lift_result (math_exp (root_variance * this_gaussian));
    let this_spot := (moved_spot * e)%float in
    let this_payoff := VanillaOption.calc_pay_off the_option this_spot in
    x ← lift_result (float_mul discounting this_payoff);
    on_local (StatisticsMC.dump_one_result x)).

(** [CalcEuropeanOption]: static methods, run on the random module's state. *)

Definition call_price_stats (strike expiry spot vol r : float)
    (number_of_paths : Z) (seed : option Z)
  : M rng (ConvergenceTable.t StatisticsMean.t) :=
  gatherer ← ConvergenceTable.init StatisticsMean.init;
  done ← with_local gatherer
    (option_price (VanillaOption.mk expiry (PayOffCall strike)) spot
       (ParametersConstant.init vol) (ParametersConstant.init r)
       number_of_paths seed);
  mret (snd done).

Definition call_price (strike expiry spot vol r : float)
    (number_of_paths : Z) (seed : option Z) : M rng pyval :=
  convergence_table ←
    call_price_stats strike expiry spot vol r number_of_paths seed;
  rows ← with_local convergence_table (on_local StatisticsMC.get_results_so_far);
  last ← py_getitem (fst rows) (-1);
  price ← py_getitem last 0;
  mret price.

Definition put_price_stats (strike expiry spot vol r : float)
    (number_of_paths : Z) (seed : option Z)
  : M rng (ConvergenceTable.t StatisticsMean.t) :=
  gatherer ← ConvergenceTable.init StatisticsMean.init;
  done ← with_local gatherer
    (option_price (VanillaOption.mk expiry (PayOffPut strike)) spot
       (ParametersConstant.init vol) (ParametersConstant.init r)
       number_of_paths seed);
  mret (snd done).

Definition put_price (strike expiry spot vol r : float)
    (number_of_paths : Z) (seed : option Z) : M rng pyval :=
  convergence_table ←
    put_price_stats strike expiry spot vol r number_of_paths seed;
  rows ← with_local convergence_table (on_local StatisticsMC.get_results_so_far);
  last ← py_getitem (fst rows) (-1);
  price ← py_getitem last 0;
  mret price.

End Simulation.

(** ** Running the model *)

(** [for r in rs: acc.dump_one_result(r)] *)
Fixpoint feed {Self} `{StatisticsMC Self} (rs : list float) : M Self unit :=
  match rs with
  | [] => mret tt
  | r :: rs' => StatisticsMC.dump_one_result r;; feed rs'
  end.

(** The cells of the list object a value refers to. *)
Definition cells (h : heap) (v : pyval) : option (list pyval) :=
  match v with
  | PyRef l => h !! l
  | _ => None
  end.

(** A list of rows read out of the store: what printing it would show. *)
Definition read_rows (h : heap) (v : pyval) : option (list (list pyval)) :=
  refs ← cells h v; mapM (cells h) refs.

(** [r1 + ... + rn], added in the order the results come in, from [acc]. *)
Definition float_sum (acc : float) (rs : list float) : float :=
  fold_left PrimFloat.add rs acc.

(** * The vocabulary of the statements *)

(** ** Signs of binary64 values *)

(** A number that is not below zero, a zero of either sign, or a NaN. *)
Definition not_negative (x : spec_float) : Prop :=
  match x with
  | S754_nan | S754_zero _ => True
  | S754_infinity s | S754_finite s _ _ => s = false
  end.

(** The sign bit is clear: as [not_negative], and a zero is [+0.0]. *)
Definition plus_sign (x : spec_float) : Prop :=
  match x with
  | S754_nan => True
  | S754_zero s | S754_infinity s | S754_finite s _ _ => s = false
  end.

(** ** States of a convergence table over a mean *)

Module TableStates.
Import ConvergenceTable.

Abbreviation table := (ConvergenceTable.t StatisticsMean.t).

(** The mean that a StatisticsMean with these fields reports. *)
Definition mean_of (st : StatisticsMean.t) : float :=
  (StatisticsMean.running_sum st / float_of_int (StatisticsMean.paths_done st))%float.

(** The fields of a StatisticsMean after one more result. *)
Definition mean_fed (st : StatisticsMean.t) (x : float) : StatisticsMean.t :=
  {| StatisticsMean.running_sum := StatisticsMean.running_sum st + x;
     StatisticsMean.paths_done := StatisticsMean.paths_done st + 1 |}.

(** [recorded h ct rows]: [self.results_so_far] is a list object of the
    store [h], its cells refer to row objects with the cells [rows], and none
    of them is the list itself. *)
Definition recorded (h : heap) (ct : table) (rows : list (list pyval)) : Prop :=
  exists (L : loc) (refs : list pyval),
    results_so_far ct = PyRef L /\
    h !! L = Some refs /\
    Forall2 (fun v row => cells h v = Some row) refs rows /\
    PyRef L ∉ refs.

(** What the fields are after [dump_one_result(x)], and what is on record. *)
Definition dumped (x : float) (ct : table) : table :=
  mk (mean_fed (stats ct) x) (results_so_far ct)
     (if paths_done ct + 1 =? stopping_point ct
      then stopping_point ct * 2 else stopping_point ct)
     (paths_done ct + 1).

Definition snapshot (x : float) (ct : table) (rows : list (list pyval))
  : list (list pyval) :=
  if paths_done ct + 1 =? stopping_point ct
  then rows ++ [[PyFloat (mean_of (mean_fed (stats ct) x)); PyInt (paths_done ct + 1)]]
  else rows.

(** What a caller sees of a query: the rows of the returned list as they
    are in the store when the call returns, or the exception. *)
Definition observe (σ : table * heap) : result (option (list (list pyval))) :=
  match get_results_so_far σ with
  | (Ok v, (_, h')) => Ok (read_rows h' v)
  | (Raise e, _) => Raise e
  end.

(** The row computed live from the inner accumulator. *)
Definition live_row (ct : table) : list pyval :=
  [PyFloat (mean_of (stats ct)); PyInt (paths_done ct)].

(** The answer of a table below its threshold with [rows] on record. *)
Definition answer (ct : table) (rows : list (list pyval))
  : result (option (list (list pyval))) :=
  if StatisticsMean.paths_done (stats ct) =? 0 then Raise ZeroDivisionError
  else Ok (Some (rows ++ [live_row ct])).

Definition pow2 (j : nat) : Z := 2 ^ Z.of_nat j.

(** The row recorded when the count of paths reaches [k]: the mean of the
    first [k] results, tagged [k]. *)
Definition row_at (vs : list float) (k : Z) : list pyval :=
  [PyFloat (float_sum 0 (take (Z.to_nat k) vs) / float_of_int k); PyInt k].

(** The rows recorded at the first [j] stopping points 2, 4, ..., 2^j. *)
Definition snapshots_upto (j : nat) (vs : list float) : list (list pyval) :=
  map (fun i => row_at vs (pow2 (S i))) (seq 0 j).

(** The rows on record once [vs] has been fed: one per stopping point that is
    not above the number of results. *)
Definition snapshots (vs : list float) : list (list pyval) :=
  snapshots_upto (Z.to_nat (Z.log2 (Z.of_nat (length vs)))) vs.

(** The state of a table that was created and fed [vs], with [rows] on
    record. *)
Record fed_inv (vs : list float) (ct : table) (rows : list (list pyval)) : Prop := {
  fed_stats : stats ct = StatisticsMean.mk (float_sum 0 vs) (Z.of_nat (length vs));
  fed_paths : paths_done ct = Z.of_nat (length vs);
  fed_stop : stopping_point ct = pow2 (S (length rows));
  fed_rows : rows = snapshots_upto (length rows) vs;
  fed_low : (vs = [] /\ rows = []) \/ pow2 (length rows) <= Z.of_nat (length vs);
  fed_high : Z.of_nat (length vs) < pow2 (S (length rows))
}.

(** [ConvergenceTable(StatisticsMean())] built in the store [h0]. *)
Definition new_table (h0 : heap) : table * heap :=
  (mk StatisticsMean.init (PyRef (length h0)) 2 0, h0 ++ [[]]).

(** The states that the methods lead to: after construction, any calls of
    [dump_one_result] and of [get_results_so_far], whatever their outcome. *)
Inductive reachable : table * heap -> Prop :=
  | reach_new (h0 : heap) : reachable (new_table h0)
  | reach_dump (σ : table * heap) (x : float) :
      reachable σ -> reachable (snd (dump_one_result x σ))
  | reach_get (σ : table * heap) :
      reachable σ -> reachable (snd (get_results_so_far σ)).

(** The same states, with the number of calls of [dump_one_result] that led
    to them: construction, then [n] results, and queries anywhere between. *)
Inductive reached : nat -> table * heap -> Prop :=
  | reached_new (h0 : heap) : reached 0 (new_table h0)
  | reached_dump (n : nat) (σ : table * heap) (x : float) :
      reached n σ -> reached (S n) (snd (dump_one_result x σ))
  | reached_get (n : nat) (σ : table * heap) :
      reached n σ -> reached n (snd (get_results_so_far σ)).

(** The state after [k] queries in a row. *)
Fixpoint after_queries (k : nat) (σ : table * heap) : table * heap :=
  match k with
  | O => σ
  | S k' => after_queries k' (snd (get_results_so_far σ))
  end.

(** The invariant of the reachable states: some results [vs] were fed, and
    [rows] are on record. *)
Definition table_inv (σ : table * heap) (rows : list (list pyval)) : Prop :=
  exists vs, recorded (snd σ) (fst σ) rows /\ fed_inv vs (fst σ) rows.

End TableStates.

(** [ConvergenceTable(ConvergenceTable(StatisticsMean()))] built in the empty
    store: a table is an accumulator too, and the class takes any. *)
Definition nested_table : ConvergenceTable.t TableStates.table * heap :=
  (ConvergenceTable.mk
     (ConvergenceTable.mk StatisticsMean.init (PyRef 0%nat) 2 0) (PyRef 1%nat) 2 0,
   [[]; []]).

(** ** States of a convergence table over any accumulator *)

Module AnyTable.
Section AnyTable.

Context {Inner : Type} `{StatisticsMC Inner}.

(** The states of a table over any accumulator: construction in any store,
    calls of the two methods with whatever outcome, and, between the calls,
    anything that other code does to the inner accumulator and to the list
    objects of the store, which it can reach through references. *)
Inductive reachable : ConvergenceTable.t Inner * heap -> Prop :=
  | reach_new (stats : Inner) (h0 : heap) :
      reachable (ConvergenceTable.mk stats (PyRef (length h0)) 2 0, h0 ++ [[]])
  | reach_dump (σ : ConvergenceTable.t Inner * heap) (x : float) :
      reachable σ -> reachable (snd (ConvergenceTable.dump_one_result x σ))
  | reach_get (σ : ConvergenceTable.t Inner * heap) :
      reachable σ -> reachable (snd (ConvergenceTable.get_results_so_far σ))
  | reach_others (σ : ConvergenceTable.t Inner * heap) (stats : Inner) (h : heap) :
      reachable σ ->
      reachable (ConvergenceTable.mk stats
                   (ConvergenceTable.results_so_far (fst σ))
                   (ConvergenceTable.stopping_point (fst σ))
                   (ConvergenceTable.paths_done (fst σ)), h).

(** The fields of a table that only the table itself assigns. *)
Definition own_fields (ct : ConvergenceTable.t Inner) : pyval * Z * Z :=
  (ConvergenceTable.results_so_far ct, ConvergenceTable.stopping_point ct,
   ConvergenceTable.paths_done ct).

(** A computation that assigns none of the table's own fields, whatever its
    outcome. *)
Definition keeps_fields {A} (m : M (ConvergenceTable.t Inner) A) : Prop :=
  forall σ, own_fields (fst (snd (m σ))) = own_fields (fst σ).

End AnyTable.
End AnyTable.

(** ** Runs of the simulation *)

Section SimulationRuns.
Import TableStates.

Context {runtime : Runtime}.

(** The state of the random module once [option_price] has looked at its
    seed. *)
Definition seeded (seed : option Z) (g : rng) : rng :=
  match seed with
  | Some seed => random_seed seed
  | None => g
  end.

(** The first [n] draws of [random.gauss(0, 1)] from the state [g], and the
    state after them. *)
Fixpoint draws (n : nat) (g : rng) : list float :=
  match n with
  | O => []
  | S n' => fst (random_gauss g) :: draws n' (snd (random_gauss g))
  end.

Fixpoint after_draws (n : nat) (g : rng) : rng :=
  match n with
  | O => g
  | S n' => after_draws n' (snd (random_gauss g))
  end.

(** What is computed once, before the loop: the root of the variance, the
    moved spot and the discount factor, or the first exception. *)
Definition prologue {Vol Rate : Type} `{Parameters Vol} `{Parameters Rate}
    (the_option : VanillaOption.t) (spot : float) (vol : Vol) (r : Rate)
  : result (float * float * float) :=
  let expiry := VanillaOption.get_expiry the_option in
  let variance := integral_square vol 0 expiry in
  match math_sqrt variance with
  | Raise e => Raise e
  | Ok root_variance =>
      match math_exp (integral r 0 expiry + -0.5 * variance) with
      | Raise e => Raise e
      | Ok e1 =>
          match math_exp (- integral r 0 expiry) with
          | Raise e => Raise e
          | Ok discounting => Ok (root_variance, (spot * e1)%float, discounting)
          end
      end
  end.

(** The discounted payoff of the path with the draw [z]. *)
Definition path_value (the_option : VanillaOption.t)
    (root_variance moved_spot discounting z : float) : result float :=
  match math_exp (root_variance * z) with
  | Raise e => Raise e
  | Ok e =>
      float_mul discounting (VanillaOption.calc_pay_off the_option (moved_spot * e))
  end.

(** The values that [n] turns of the loop feed, up to the first exception of
    a path, that exception if there is one, and the state of the random
    module at the end. *)
Fixpoint path_values (the_option : VanillaOption.t)
    (root_variance moved_spot discounting : float) (n : nat) (g : rng)
  : list float * option exn * rng :=
  match n with
  | O => ([], None, g)
  | S n' =>
      let g' := snd (random_gauss g) in
      match path_value the_option root_variance moved_spot discounting
              (fst (random_gauss g)) with
      | Raise e => ([], Some e, g')
      | Ok x =>
          let '(vs, err, g'') :=
            path_values the_option root_variance moved_spot discounting n' g' in
          (x :: vs, err, g'')
      end
  end.

(** The loop of [option_price]. *)
Definition paths_loop {Gatherer : Type} `{StatisticsMC Gatherer}
    (the_option : VanillaOption.t) (root_variance moved_spot discounting : float)
    (n : nat) (i : nat) : M (Gatherer * rng) unit :=
  for_range n i (fun _ =>
    this_gaussian ← on_caller gauss_0_1;
    e ← lift_result (math_exp (root_variance * this_gaussian));
    let this_spot := (moved_spot * e)%float in
    let this_payoff := VanillaOption.calc_pay_off the_option this_spot in
    x ← lift_result (float_mul discounting this_payoff);
    on_local (StatisticsMC.dump_one_result x)).

(** The body that [call_price_stats] and [put_price_stats] share, for any
    payoff. *)
Definition price_stats (pay_off : PayOff) (expiry spot vol r : float)
    (number_of_paths : Z) (seed : option Z) : M rng table :=
  gatherer ← ConvergenceTable.init StatisticsMean.init;
  done ← with_local gatherer
    (option_price (VanillaOption.mk expiry pay_off) spot
       (ParametersConstant.init vol) (ParametersConstant.init r)
       number_of_paths seed);
  mret (snd done).

(** The query and the two subscripts that [call_price] and [put_price] share. *)
Definition last_price (convergence_table : table) : M rng pyval :=
  rows ← with_local convergence_table (on_local StatisticsMC.get_results_so_far);
  last ← py_getitem (fst rows) (-1);
  price ← py_getitem last 0;
  mret price.

(** Two tables with the same contents: the fields that are numbers are
    equal, the same rows are on record, and a query shows the same rows.  (The
    references differ when the stores do.) *)
Definition same_table (σ1 σ2 : table * heap) : Prop :=
  ConvergenceTable.stats (fst σ1) = ConvergenceTable.stats (fst σ2) /\
  ConvergenceTable.stopping_point (fst σ1) = ConvergenceTable.stopping_point (fst σ2) /\
  ConvergenceTable.paths_done (fst σ1) = ConvergenceTable.paths_done (fst σ2) /\
  (exists rows,
     read_rows (snd σ1) (ConvergenceTable.results_so_far (fst σ1)) = Some rows /\
     read_rows (snd σ2) (ConvergenceTable.results_so_far (fst σ2)) = Some rows) /\
  observe σ1 = observe σ2.

(** Two runs of a statistics function with the same outcome: the same
    exception, or tables with the same contents; and the random module is
    left in the same state. *)
Definition same_run (o1 o2 : result table * (rng * heap)) : Prop :=
  match o1, o2 with
  | (Ok t1, (g1, h1)), (Ok t2, (g2, h2)) => g1 = g2 /\ same_table (t1, h1) (t2, h2)
  | (Raise e1, (g1, _)), (Raise e2, (g2, _)) => g1 = g2 /\ e1 = e2
  | _, _ => False
  end.

(** The exponential of the run-time system gives no number below zero. *)
Definition exp_not_negative : Prop :=
  forall x y : float, math_exp x = Ok y -> (y <? 0)%float = false.

End SimulationRuns.

(** ** A run-time system for concrete runs

    Stand-ins for the two things that the model takes as given, to run it on
    concrete inputs.  At expiry 0 every argument of [math.exp] is 0.0 or
    -0.0, where its value is exactly 1.0; [exp_at_zero] is [math.exp] there
    and raises elsewhere.  The random source is a tape: its state is the list
    of the draws to come. *)
Definition exp_at_zero (x : float) : result float :=
  if (x =? 0)%float then Ok 1%float else Raise OverflowError.

Definition tape_seed (seed : Z) : list float :=
  [float_of_int seed; 0.5; -1.25; 2]%float.

Definition tape_gauss (tape : list float) : float * list float :=
  (hd 0%float tape, tl tape).

Definition tape_runtime : Runtime :=
  {| math_exp := exp_at_zero; rng := list float;
     random_seed := tape_seed; random_gauss := tape_gauss |}.

(** * Theorems *)

Example float_of_int_3 : float_of_int 3 = 3%float.
Proof. reflexivity. Qed.

(** ** The mean accumulator *)

(** Unfolding of the operations of [M], to run a method on a given state. *)
Ltac unfold_M :=
  unfold mbind, M_bind, bind, mret, M_ret, ret, raise, lift_result,
    get_self, put_self, new_list, set_list in *.

Lemma bind_run {Self A B} (m : M Self A) (k : A -> M Self B) (σ : Self * heap) :
  (m ≫= k) σ =
  match m σ with
  | (Ok a, σ') => k a σ'
  | (Raise e, σ') => (Raise e, σ')
  end.
Proof. reflexivity. Qed.

Lemma feed_cons {Self} `{StatisticsMC Self} (r : float) (rs : list float)
    (σ : Self * heap) :
  feed (r :: rs) σ =
  match StatisticsMC.dump_one_result r σ with
  | (Ok _, σ') => feed rs σ'
  | (Raise e, σ') => (Raise e, σ')
  end.
Proof. reflexivity. Qed.

Module StatisticsMeanFacts.
Import StatisticsMean.

Lemma dump_one_result_run (x : float) (s : t) (h : heap) :
  dump_one_result x (s, h) =
  (Ok tt, ({| running_sum := running_sum s + x; paths_done := paths_done s + 1 |}, h)).
Proof. reflexivity. Qed.

Lemma feed_run (rs : list float) : forall (s : t) (h : heap),
  feed rs (s, h) =
  (Ok tt, ({| running_sum := float_sum (running_sum s) rs;
              paths_done := paths_done s + Z.of_nat (length rs) |}, h)).
Proof.
  induction rs as [|r rs IH]; intros s h.
  - destruct s as [a n]. cbn. do 3 f_equal. lia.
  - rewrite feed_cons.
    change (StatisticsMC.dump_one_result r (s, h)) with (dump_one_result r (s, h)).
    rewrite dump_one_result_run, IH. cbn. do 3 f_equal. lia.
Qed.

Lemma get_results_so_far_run (s : t) (h : heap) :
  get_results_so_far (s, h) =
  match truediv (running_sum s) (paths_done s) with
  | Ok mean =>
      (Ok (PyRef (S (length h))), (s, h ++ [[PyFloat mean]; [PyRef (length h)]]))
  | Raise e => (Raise e, (s, h))
  end.
Proof.
  unfold get_results_so_far. unfold_M. cbn.
  destruct (truediv (running_sum s) (paths_done s)); cbn; [|reflexivity].
  rewrite length_app, <- app_assoc. cbn. do 3 f_equal. lia.
Qed.

Lemma get_results_so_far_empty (s : t) (h : heap) :
  paths_done s = 0 ->
  get_results_so_far (s, h) = (Raise ZeroDivisionError, (s, h)).
Proof.
  intros E. rewrite get_results_so_far_run. unfold truediv. rewrite E. reflexivity.
Qed.

Lemma read_fresh_rows (h : heap) (row : list pyval) :
  read_rows (h ++ [row; [PyRef (length h)]]) (PyRef (S (length h))) = Some [row].
Proof.
  unfold read_rows, cells. cbn.
  replace (S (length h)) with (length h + 1)%nat by lia.
  rewrite lookup_app_r by lia.
  replace (length h + 1 - length h)%nat with 1%nat by lia. cbn.
  rewrite lookup_app_r by lia. rewrite Nat.sub_diag. reflexivity.
Qed.

(** C4. Feeding the results [r1 .. rn] (n >= 1) to a new StatisticsMean
    leaves [running_sum = r1 + ... + rn] and [paths_done = n], and
    [get_results_so_far()] then returns a new list holding the one row
    [[(r1 + ... + rn) / n]], without changing the accumulator. *)
Theorem mean_of_results (rs : list float) (h : heap) :
  rs <> [] ->
  let n := Z.of_nat (length rs) in
  let total := float_sum 0 rs in
  let fed := {| running_sum := total; paths_done := n |} in
  feed rs (init, h) = (Ok tt, (fed, h)) /\
  exists (rows : loc) (h' : heap),
    StatisticsMC.get_results_so_far (fed, h) = (Ok (PyRef rows), (fed, h')) /\
    read_rows h' (PyRef rows) = Some [[PyFloat (total / float_of_int n)]].
Proof.
  intros Hne n total fed. split.
  - rewrite feed_run. reflexivity.
  - change (@StatisticsMC.get_results_so_far t _) with get_results_so_far.
    rewrite get_results_so_far_run. unfold truediv. cbn.
    destruct (Z.eqb_spec n 0) as [E|_].
    + destruct rs; [congruence | cbn in n; lia].
    + eexists _, _. split; [reflexivity | apply read_fresh_rows].
Qed.

Lemma mean_of_results_witness :
  feed [1%float; 3%float] (init, []) =
    (Ok tt, ({| running_sum := 4; paths_done := 2 |}, [])) /\
  exists (rows : loc) (h' : heap),
    StatisticsMC.get_results_so_far ({| running_sum := 4; paths_done := 2 |}, []) =
      (Ok (PyRef rows), ({| running_sum := 4; paths_done := 2 |}, h')) /\
    read_rows h' (PyRef rows) = Some [[PyFloat 2]].
Proof.
  apply (mean_of_results [1%float; 3%float] []). discriminate.
Defined.

End StatisticsMeanFacts.

(** ** Comparisons of binary64 numbers *)

Module FloatFacts.

Lemma SFcompare_swap (x y : spec_float) (c : comparison) :
  SFcompare x y = Some c -> SFcompare y x = Some (CompOpp c).
Proof.
  destruct x as [sx| sx | |sx mx ex], y as [sy|sy| |sy my ey]; cbn;
    try discriminate;
    try (destruct sx); try (destruct sy);
    intros [= <-]; try reflexivity.
  all: rewrite (Z.compare_antisym ex ey);
    destruct (ex ?= ey)%Z; cbn; try reflexivity;
    rewrite !Pos.compare_cont_spec, (Pos.compare_antisym mx my);
    destruct (mx ?= my)%positive; reflexivity.
Qed.

Lemma SFcompare_refl (x : spec_float) :
  x <> S754_nan -> SFcompare x x = Some Eq.
Proof.
  destruct x as [s|s| |s m e]; cbn; try congruence; destruct s; intros _;
    try reflexivity;
    rewrite Z.compare_refl, Pos.compare_cont_spec, Pos.compare_refl; reflexivity.
Qed.

Lemma SFcompare_ordered (x y : spec_float) :
  x <> S754_nan -> y <> S754_nan -> exists c, SFcompare x y = Some c.
Proof.
  destruct x, y; cbn; try congruence; eauto.
Qed.

Lemma is_nan_false (x : float) : is_nan x = false <-> Prim2SF x <> S754_nan.
Proof.
  unfold is_nan. rewrite FloatAxioms.eqb_spec. unfold SFeqb. split.
  - intros E N. rewrite N in E. cbn in E. discriminate.
  - intros N. rewrite SFcompare_refl by assumption. reflexivity.
Qed.

(** On numbers, [x <= y] is the negation of [y < x]. *)
Lemma leb_negb_ltb (x y : float) :
  is_nan x = false -> is_nan y = false -> (x <=? y)%float = negb (y <? x)%float.
Proof.
  rewrite !is_nan_false, FloatAxioms.leb_spec, FloatAxioms.ltb_spec. unfold SFleb, SFltb. intros Hx Hy.
  destruct (SFcompare_ordered _ _ Hx Hy) as [c Hc].
  rewrite Hc, (SFcompare_swap _ _ _ Hc). destruct c; reflexivity.
Qed.

(** A NaN is neither below nor above anything. *)
Lemma ltb_numbers (x y : float) :
  (x <? y)%float = true -> is_nan x = false /\ is_nan y = false.
Proof.
  rewrite !is_nan_false, FloatAxioms.ltb_spec. unfold SFltb.
  destruct (Prim2SF x), (Prim2SF y); cbn; try discriminate; intros _; split; congruence.
Qed.

Lemma leb_refl (x : float) : is_nan x = false -> (x <=? x)%float = true.
Proof.
  rewrite is_nan_false, FloatAxioms.leb_spec. unfold SFleb. intros Hx.
  rewrite SFcompare_refl by assumption. reflexivity.
Qed.

End FloatFacts.

(** ** The double digital payoff *)

(** C6, as the claim has it, fails on two inputs: a NaN spot is neither at or
    below the lower level nor at or above the upper one, so it is paid 1; and
    between the neighbours 1 and 1 + 2^-52 the computed midpoint is 1 itself,
    which is paid 0. *)
Lemma double_digital_nan_and_midpoint :
  ~ (forall lower upper spot : float, (lower <? upper)%float = true ->
       calc (PayOffDoubleDigital lower upper) spot =
       if ((lower <? spot) && (spot <? upper))%float then PyInt 1 else PyInt 0) /\
  ~ (forall lower upper : float, (lower <? upper)%float = true ->
       calc (PayOffDoubleDigital lower upper) ((lower + upper) / 2) = PyInt 1).
Proof.
  split.
  - intros C. specialize (C 0%float 1%float nan eq_refl). vm_compute in C. discriminate.
  - intros C. specialize (C 1%float (next_up 1) eq_refl). vm_compute in C. discriminate.
Qed.

(** C6, amended.  For [lower < upper] and a spot that is a number (not a
    NaN), [calc] returns 1 when [lower < spot < upper], strictly on both
    sides, and 0 otherwise; [calc(lower) = 0] and [calc(upper) = 0]; and
    [calc((lower + upper) / 2) = 1] when that midpoint, as computed, lies
    strictly between the two levels. *)
Theorem double_digital_calc (lower upper spot : float) :
  (lower <? upper)%float = true ->
  is_nan spot = false ->
  calc (PayOffDoubleDigital lower upper) spot =
    (if ((lower <? spot) && (spot <? upper))%float then PyInt 1 else PyInt 0) /\
  calc (PayOffDoubleDigital lower upper) lower = PyInt 0 /\
  calc (PayOffDoubleDigital lower upper) upper = PyInt 0 /\
  (let mid := ((lower + upper) / 2)%float in
   ((lower <? mid) && (mid <? upper))%float = true ->
   calc (PayOffDoubleDigital lower upper) mid = PyInt 1).
Proof.
  intros Hlu Hs.
  destruct (FloatFacts.ltb_numbers _ _ Hlu) as [Hl Hu].
  assert (body : forall s, is_nan s = false ->
            calc (PayOffDoubleDigital lower upper) s =
            if ((lower <? s) && (s <? upper))%float then PyInt 1 else PyInt 0).
  { intros s Hn. cbn.
    rewrite (FloatFacts.leb_negb_ltb s lower), (FloatFacts.leb_negb_ltb upper s)
      by assumption.
    destruct (lower <? s)%float, (s <? upper)%float; reflexivity. }
  split; [apply body; assumption|].
  split; [cbn; rewrite FloatFacts.leb_refl by assumption; reflexivity|].
  split.
  - cbn. rewrite (FloatFacts.leb_negb_ltb upper lower), Hlu by assumption. cbn.
    rewrite FloatFacts.leb_refl by assumption. reflexivity.
  - intros mid Hmid. apply andb_prop in Hmid as [H1 H2].
    rewrite body by (apply (FloatFacts.ltb_numbers _ _ H1)).
    rewrite H1, H2. reflexivity.
Qed.

Lemma double_digital_calc_witness :
  calc (PayOffDoubleDigital 1 3) 2 =
    (if ((1 <? 2) && (2 <? 3))%float then PyInt 1 else PyInt 0) /\
  calc (PayOffDoubleDigital 1 3) 1 = PyInt 0 /\
  calc (PayOffDoubleDigital 1 3) 3 = PyInt 0 /\
  (let mid := ((1 + 3) / 2)%float in
   ((1 <? mid) && (mid <? 3))%float = true ->
   calc (PayOffDoubleDigital 1 3) mid = PyInt 1).
Proof.
  apply (double_digital_calc 1 3 2); reflexivity.
Defined.

(** ** The mean accumulator before any result *)

(** C7, as the claim has it, fails: the query of a new accumulator does not
    end in an error that the program raises itself. *)
Lemma empty_mean_error_not_explicit :
  ~ (forall (s : StatisticsMean.t) (h : heap),
       StatisticsMean.paths_done s = 0 ->
       exists what σ',
         StatisticsMean.get_results_so_far (s, h) = (Raise (Explicit what), σ')).
Proof.
  intros C. destruct (C StatisticsMean.init [] eq_refl) as (what & σ' & E).
  vm_compute in E. discriminate.
Qed.

(** C7, amended.  The query of a StatisticsMean with [paths_done = 0] ends
    in the ZeroDivisionError of the division [running_sum / paths_done],
    whatever the running sum is: no row is built, no value is returned, and
    the accumulator and the store are left as they were. *)
Theorem empty_mean_raises (s : StatisticsMean.t) (h : heap) :
  StatisticsMean.paths_done s = 0 ->
  StatisticsMean.get_results_so_far (s, h) = (Raise ZeroDivisionError, (s, h)).
Proof.
  apply StatisticsMeanFacts.get_results_so_far_empty.
Qed.

Lemma empty_mean_raises_witness :
  StatisticsMean.get_results_so_far (StatisticsMean.init, []) =
  (Raise ZeroDivisionError, (StatisticsMean.init, [])).
Proof.
  apply (empty_mean_raises StatisticsMean.init []). reflexivity.
Defined.

(** ** The list operations on a store *)

Section ListOperations.
Context {Self : Type}.
Implicit Types (s : Self) (h : heap) (l : loc) (vs : list pyval).

Lemma as_list_run e l vs s h :
  h !! l = Some vs -> as_list e (PyRef l) (s, h) = (Ok (l, vs), (s, h)).
Proof. intros E. unfold as_list. cbn. rewrite E. reflexivity. Qed.

Lemma py_len_run l vs s h :
  h !! l = Some vs -> py_len (PyRef l) (s, h) = (Ok (length vs), (s, h)).
Proof.
  intros E. unfold py_len. rewrite bind_run, (as_list_run _ _ _ _ _ E). reflexivity.
Qed.

Lemma py_getitem_run l vs (i : nat) v s h :
  h !! l = Some vs -> vs !! i = Some v ->
  py_getitem (PyRef l) (Z.of_nat i) (s, h) = (Ok v, (s, h)).
Proof.
  intros E Ei. unfold py_getitem. rewrite bind_run, (as_list_run _ _ _ _ _ E). cbn.
  assert (Hi : (Z.of_nat i <? 0) = false) by (apply Z.ltb_ge; lia).
  rewrite !Hi, Nat2Z.id, Ei. reflexivity.
Qed.

Lemma py_getitem_last l vs v s h :
  h !! l = Some (vs ++ [v]) -> py_getitem (PyRef l) (-1) (s, h) = (Ok v, (s, h)).
Proof.
  intros E. unfold py_getitem. rewrite bind_run, (as_list_run _ _ _ _ _ E). cbn.
  rewrite length_app. cbn.
  assert (Hi : (-1 + Z.of_nat (length vs + 1) <? 0) = false) by (apply Z.ltb_ge; lia).
  rewrite Hi.
  replace (Z.to_nat (-1 + Z.of_nat (length vs + 1))) with (length vs + 0)%nat by lia.
  rewrite lookup_app_r by lia.
  replace (length vs + 0 - length vs)%nat with 0%nat by lia. reflexivity.
Qed.

Lemma py_append_run l vs v s h :
  h !! l = Some vs ->
  py_append (PyRef l) v (s, h) = (Ok tt, (s, <[l := vs ++ [v]]> h)).
Proof.
  intros E. unfold py_append. rewrite bind_run, (as_list_run _ _ _ _ _ E). reflexivity.
Qed.

Lemma py_copy_run l vs s h :
  h !! l = Some vs -> py_copy (PyRef l) (s, h) = (Ok (length h), (s, h ++ [vs])).
Proof.
  intros E. unfold py_copy. rewrite bind_run, (as_list_run _ _ _ _ _ E). reflexivity.
Qed.

End ListOperations.

(** Lookups in a store that has grown. *)
Lemma lookup_old {A} (h new : list A) (l : nat) (v : A) :
  h !! l = Some v -> (h ++ new) !! l = Some v.
Proof. intros E. apply lookup_app_l_Some. exact E. Qed.

Lemma lookup_new_0 {A} (h : list A) (a : A) (new : list A) :
  (h ++ a :: new) !! length h = Some a.
Proof. rewrite lookup_app_r by lia. rewrite Nat.sub_diag. reflexivity. Qed.

Lemma lookup_new_1 {A} (h : list A) (a b : A) (new : list A) :
  (h ++ a :: b :: new) !! S (length h) = Some b.
Proof.
  rewrite lookup_app_r by lia.
  replace (S (length h) - length h)%nat with 1%nat by lia. reflexivity.
Qed.

(** ** The convergence table over a mean *)

Module ConvergenceTableFacts.
Import ConvergenceTable TableStates.

Lemma on_stats_dump (x : float) st rs sp pd (h : heap) :
  on_stats (StatisticsMC.dump_one_result x) (mk st rs sp pd, h) =
  (Ok tt, (mk (mean_fed st x) rs sp pd, h)).
Proof. reflexivity. Qed.

Lemma on_stats_get st rs sp pd (h : heap) :
  StatisticsMean.paths_done st <> 0 ->
  on_stats StatisticsMC.get_results_so_far (mk st rs sp pd, h) =
  (Ok (PyRef (S (length h))),
   (mk st rs sp pd, h ++ [[PyFloat (mean_of st)]; [PyRef (length h)]])).
Proof.
  intros Hn. unfold on_stats. cbn [fst snd stats].
  change (@StatisticsMC.get_results_so_far StatisticsMean.t _)
    with StatisticsMean.get_results_so_far.
  rewrite StatisticsMeanFacts.get_results_so_far_run. unfold truediv.
  destruct (Z.eqb_spec (StatisticsMean.paths_done st) 0); [contradiction|].
  reflexivity.
Qed.

Lemma on_stats_get_empty st rs sp pd (h : heap) :
  StatisticsMean.paths_done st = 0 ->
  on_stats StatisticsMC.get_results_so_far (mk st rs sp pd, h) =
  (Raise ZeroDivisionError, (mk st rs sp pd, h)).
Proof.
  intros Hn. unfold on_stats. cbn [fst snd stats].
  change (@StatisticsMC.get_results_so_far StatisticsMean.t _)
    with StatisticsMean.get_results_so_far.
  rewrite (StatisticsMeanFacts.get_results_so_far_empty st h Hn). reflexivity.
Qed.

(** One turn of the loops over [this_result]: row [r] gets the tag and
    list [L] gets the row. *)
Lemma tag_and_append_run (ct : table) (h : heap) (o r L : loc) (i : nat)
    (os row refs : list pyval) :
  h !! o = Some os -> os !! i = Some (PyRef r) -> h !! r = Some row ->
  h !! L = Some refs -> o <> r -> L <> r ->
  tag_and_append (PyRef o) (PyRef L) i (ct, h) =
  (Ok tt, (ct, <[L := refs ++ [PyRef r]]> (<[r := row ++ [PyInt (paths_done ct)]]> h))).
Proof.
  intros Ho Hi Hr HL Hor HLr. unfold tag_and_append.
  rewrite bind_run, (py_getitem_run _ _ _ _ _ _ Ho Hi).
  rewrite bind_run. cbn [get_self fst].
  rewrite bind_run, (py_append_run _ _ _ _ _ Hr).
  rewrite bind_run, (py_getitem_run o os i (PyRef r)); [|
    rewrite list_lookup_insert_ne by congruence; assumption | assumption].
  rewrite (py_append_run L refs); [reflexivity|].
  rewrite list_lookup_insert_ne by congruence. assumption.
Qed.

(** [dump_one_result] away from a stopping point. *)
Lemma dump_run_plain (x : float) st rs sp pd (h : heap) :
  pd + 1 <> sp ->
  dump_one_result x (mk st rs sp pd, h) =
  (Ok tt, (mk (mean_fed st x) rs sp (pd + 1), h)).
Proof.
  intros Hne. unfold dump_one_result.
  rewrite bind_run, on_stats_dump. unfold_M. cbn.
  destruct (Z.eqb_spec (pd + 1) sp); [contradiction | reflexivity].
Qed.

(** [dump_one_result] at a stopping point: the threshold doubles, and the
    new row [[mean, paths_done]] is a new object whose reference goes at the
    end of the list [self.results_so_far]. *)
Lemma dump_run_snapshot (x : float) st (L : loc) sp pd (h : heap) (refs : list pyval) :
  pd + 1 = sp -> StatisticsMean.paths_done st + 1 <> 0 -> h !! L = Some refs ->
  dump_one_result x (mk st (PyRef L) sp pd, h) =
  (Ok tt,
   (mk (mean_fed st x) (PyRef L) (sp * 2) (pd + 1),
    <[L := refs ++ [PyRef (length h)]]> h ++
    [[PyFloat (mean_of (mean_fed st x)); PyInt (pd + 1)]; [PyRef (length h)]])).
Proof.
  intros Hsp Hn HL. unfold dump_one_result.
  rewrite bind_run, on_stats_dump. unfold_M. cbn [fst snd].
  cbn [paths_done stopping_point stats results_so_far].
  destruct (Z.eqb_spec (pd + 1) sp); [|contradiction].
  cbn [fst snd paths_done stopping_point stats results_so_far].
  rewrite on_stats_get by exact Hn.
  rewrite (py_len_run _ [PyRef (length h)]) by apply lookup_new_1.
  cbn [length for_range]. unfold_M.
  cbn [fst paths_done stopping_point stats results_so_far].
  rewrite (tag_and_append_run _ _ (S (length h)) (length h) L 0
             [PyRef (length h)] [PyFloat (mean_of (mean_fed st x))] refs);
    [ | apply lookup_new_1 | reflexivity | apply lookup_new_0
      | apply lookup_old; exact HL | lia
      | apply lookup_lt_Some in HL; lia ].
  cbn [paths_done]. unfold math_ceil. do 3 f_equal.
  rewrite insert_app_r_alt by lia. rewrite Nat.sub_diag. cbn.
  rewrite insert_app_l by (apply lookup_lt_Some in HL; exact HL). reflexivity.
Qed.

(** [get_results_so_far] with the live row: the copy [tmp] is a new list, the
    live row is a new object, and no object that was there is changed. *)
Lemma get_run_live st (L : loc) sp pd (h : heap) (refs : list pyval) :
  pd <> sp -> StatisticsMean.paths_done st <> 0 -> h !! L = Some refs ->
  get_results_so_far (mk st (PyRef L) sp pd, h) =
  (Ok (PyRef (length h)),
   (mk st (PyRef L) sp pd,
    h ++ [refs ++ [PyRef (S (length h))];
          [PyFloat (mean_of st); PyInt pd];
          [PyRef (S (length h))]])).
Proof.
  intros Hsp Hn HL. unfold get_results_so_far.
  rewrite bind_run. cbn [get_self fst results_so_far].
  rewrite bind_run, (py_copy_run _ _ _ _ HL).
  rewrite bind_run. cbn [get_self fst paths_done stopping_point].
  destruct (Z.eqb_spec pd sp); [contradiction|]. cbn [negb].
  rewrite bind_run, bind_run, on_stats_get by exact Hn.
  rewrite length_app. cbn [length].
  replace (length h + 1)%nat with (S (length h)) by lia.
  rewrite bind_run.
  rewrite (py_len_run _ [PyRef (S (length h))]);
    [| rewrite <- app_assoc; cbn [app]; rewrite lookup_app_r by lia;
       replace (S (S (length h)) - length h)%nat with 2%nat by lia; reflexivity ].
  cbn [length for_range]. rewrite bind_run.
  rewrite (tag_and_append_run _ _ (S (S (length h))) (S (length h)) (length h) 0
             [PyRef (S (length h))] [PyFloat (mean_of st)] refs);
    [ | rewrite <- app_assoc; cbn [app]; rewrite lookup_app_r by lia;
        replace (S (S (length h)) - length h)%nat with 2%nat by lia; reflexivity
      | reflexivity
      | rewrite <- app_assoc; cbn [app]; apply lookup_new_1
      | rewrite <- app_assoc; cbn [app]; apply lookup_new_0
      | lia | lia ].
  cbn [paths_done]. unfold_M. do 3 f_equal.
  rewrite <- app_assoc. cbn [app].
  rewrite !insert_app_r_alt by lia. rewrite Nat.sub_diag.
  replace (S (length h) - length h)%nat with 1%nat by lia. reflexivity.
Qed.

(** [get_results_so_far] of a table that was fed nothing: the copy is made,
    then the inner query fails. *)
Lemma get_run_empty st (L : loc) sp pd (h : heap) (refs : list pyval) :
  pd <> sp -> StatisticsMean.paths_done st = 0 -> h !! L = Some refs ->
  get_results_so_far (mk st (PyRef L) sp pd, h) =
  (Raise ZeroDivisionError, (mk st (PyRef L) sp pd, h ++ [refs])).
Proof.
  intros Hsp Hn HL. unfold get_results_so_far.
  rewrite bind_run. cbn [get_self fst results_so_far].
  rewrite bind_run, (py_copy_run _ _ _ _ HL).
  rewrite bind_run. cbn [get_self fst paths_done stopping_point].
  destruct (Z.eqb_spec pd sp); [contradiction|]. cbn [negb].
  rewrite bind_run, bind_run, on_stats_get_empty by exact Hn. reflexivity.
Qed.

(** [get_results_so_far] when the count of paths is the threshold: the copy
    alone.  (No state that the methods lead to is of this kind.) *)
Lemma get_run_at_threshold st (L : loc) sp (h : heap) (refs : list pyval) :
  h !! L = Some refs ->
  get_results_so_far (mk st (PyRef L) sp sp, h) =
  (Ok (PyRef (length h)), (mk st (PyRef L) sp sp, h ++ [refs])).
Proof.
  intros HL. unfold get_results_so_far.
  rewrite bind_run. cbn [get_self fst results_so_far].
  rewrite bind_run, (py_copy_run _ _ _ _ HL).
  rewrite bind_run. cbn [get_self fst paths_done stopping_point].
  rewrite Z.eqb_refl. reflexivity.
Qed.

Lemma read_rows_intro (h : heap) (v : pyval) (refs : list pyval)
    (rows : list (list pyval)) :
  cells h v = Some refs ->
  Forall2 (fun v row => cells h v = Some row) refs rows ->
  read_rows h v = Some rows.
Proof.
  intros Hv Hrows. unfold read_rows. rewrite Hv. cbn. apply mapM_Some. exact Hrows.
Qed.

Lemma recorded_read (h : heap) (ct : table) (rows : list (list pyval)) :
  recorded h ct rows -> read_rows h (results_so_far ct) = Some rows.
Proof.
  intros (L & refs & -> & HL & Hrows & _). eapply read_rows_intro; eauto.
Qed.

(** Cells of an object of [h] that is not [L], in a store where [L] was
    updated and objects were added. *)
Lemma cells_frame (h new : heap) (L : loc) (vs : list pyval) (v : pyval)
    (row : list pyval) :
  v <> PyRef L -> cells h v = Some row -> cells (<[L := vs]> h ++ new) v = Some row.
Proof.
  destruct v as [f|z|l]; cbn; try discriminate. intros Hne Hl.
  apply lookup_old. rewrite list_lookup_insert_ne by congruence. exact Hl.
Qed.

Lemma cells_grow (h new : heap) (v : pyval) (row : list pyval) :
  cells h v = Some row -> cells (h ++ new) v = Some row.
Proof. destruct v as [f|z|l]; cbn; try discriminate. apply lookup_old. Qed.

Lemma Forall2_impl_elem {A B} (P Q : A -> B -> Prop) (l : list A) (k : list B) :
  Forall2 P l k -> (forall a b, a ∈ l -> P a b -> Q a b) -> Forall2 Q l k.
Proof.
  induction 1 as [|a b l k Hab _ IH]; intros HPQ; constructor.
  - apply HPQ; [left | exact Hab].
  - apply IH. intros a' b' Hin. apply HPQ. right. exact Hin.
Qed.

Lemma dump_recorded (x : float) (ct : table) (h : heap) (rows : list (list pyval)) :
  recorded h ct rows ->
  StatisticsMean.paths_done (stats ct) + 1 <> 0 ->
  exists h',
    dump_one_result x (ct, h) = (Ok tt, (dumped x ct, h')) /\
    recorded h' (dumped x ct) (snapshot x ct rows).
Proof.
  intros (L & refs & Hrs & HL & Hrows & Hfresh) Hn.
  destruct ct as [st rs sp pd]. cbn in Hrs, Hn. subst rs.
  unfold dumped, snapshot. cbn [paths_done stopping_point stats results_so_far].
  destruct (Z.eqb_spec (pd + 1) sp) as [E|E].
  - rewrite (dump_run_snapshot x st L sp pd h refs E Hn HL).
    eexists. split; [reflexivity|].
    assert (HLlt : (L < length h)%nat) by (apply lookup_lt_Some in HL; exact HL).
    exists L, (refs ++ [PyRef (length h)]). repeat split.
    + apply lookup_old. apply list_lookup_insert_eq. exact HLlt.
    + apply Forall2_app.
      * eapply Forall2_impl_elem; [exact Hrows|]. intros v row Hin Hv.
        apply cells_frame; [|exact Hv]. intros ->. contradiction.
      * constructor; [|constructor]. cbn.
        rewrite <- (length_insert h L (refs ++ [PyRef (length h)])) at 1.
        apply lookup_new_0.
    + rewrite elem_of_app, list_elem_of_singleton. intros [?|[= ->]]; [contradiction | lia].
  - rewrite (dump_run_plain x st (PyRef L) sp pd h E).
    eexists. split; [reflexivity|]. exists L, refs. repeat split; assumption.
Qed.

Lemma recorded_grow (h new : heap) (ct : table) (rows : list (list pyval)) :
  recorded h ct rows -> recorded (h ++ new) ct rows.
Proof.
  intros (L & refs & Hrs & HL & Hrows & Hfresh). exists L, refs. repeat split; auto.
  - apply lookup_old. exact HL.
  - eapply Forall2_impl; [exact Hrows|]. intros v row. apply cells_grow.
Qed.

(** A query below the threshold leaves the fields as they are, adds objects
    to the store and changes none, and gives the rows on record and the live
    row, or fails in the inner division when nothing was fed. *)
Lemma get_recorded (ct : table) (h : heap) (rows : list (list pyval)) :
  recorded h ct rows ->
  paths_done ct <> stopping_point ct ->
  exists r new,
    get_results_so_far (ct, h) = (r, (ct, h ++ new)) /\
    observe (ct, h) = answer ct rows.
Proof.
  intros (L & refs & Hrs & HL & Hrows & Hfresh) Hsp.
  destruct ct as [st rs sp pd]. cbn in Hrs, Hsp. subst rs.
  unfold observe, answer. cbn [stats].
  destruct (Z.eqb_spec (StatisticsMean.paths_done st) 0) as [E|E].
  - rewrite (get_run_empty st L sp pd h refs Hsp E HL). eauto.
  - rewrite (get_run_live st L sp pd h refs Hsp E HL).
    eexists _, _. split; [reflexivity|]. do 2 f_equal.
    eapply read_rows_intro; [apply lookup_new_0|]. apply Forall2_app.
    + eapply Forall2_impl; [exact Hrows|]. intros v row. apply cells_grow.
    + constructor; [|constructor]. cbn. apply lookup_new_1.
Qed.

(** *** The schedule of the snapshots *)

Lemma pow2_S (j : nat) : pow2 (S j) = 2 * pow2 j.
Proof. unfold pow2. rewrite Nat2Z.inj_succ, Z.pow_succ_r by lia. reflexivity. Qed.

Lemma pow2_pos (j : nat) : 0 < pow2 j.
Proof. unfold pow2. apply Z.pow_pos_nonneg; lia. Qed.

Lemma pow2_mono (i j : nat) : (i <= j)%nat -> pow2 i <= pow2 j.
Proof. intros Hij. unfold pow2. apply Z.pow_le_mono_r; lia. Qed.

Lemma row_at_snoc (vs : list float) (x : float) (k : Z) :
  k <= Z.of_nat (length vs) -> row_at (vs ++ [x]) k = row_at vs k.
Proof.
  intros Hk. unfold row_at. rewrite take_app_le by lia. reflexivity.
Qed.

Lemma snapshots_upto_snoc (j : nat) (vs : list float) (x : float) :
  (j = 0%nat \/ pow2 j <= Z.of_nat (length vs)) ->
  snapshots_upto j (vs ++ [x]) = snapshots_upto j vs.
Proof.
  intros Hj. unfold snapshots_upto. apply map_ext_in. intros i Hi.
  apply in_seq in Hi. apply row_at_snoc.
  destruct Hj as [-> | Hj]; [lia|].
  pose proof (pow2_mono (S i) j ltac:(lia)). lia.
Qed.

Lemma float_sum_snoc (a : float) (vs : list float) (x : float) :
  float_sum a (vs ++ [x]) = (float_sum a vs + x)%float.
Proof. unfold float_sum. rewrite fold_left_app. reflexivity. Qed.

Lemma fed_inv_init (rs : pyval) :
  fed_inv [] (mk StatisticsMean.init rs 2 0) [].
Proof. split; cbn; try reflexivity. left. split; reflexivity. Qed.

Lemma fed_inv_dump (vs : list float) (x : float) (ct : table)
    (rows : list (list pyval)) :
  fed_inv vs ct rows -> fed_inv (vs ++ [x]) (dumped x ct) (snapshot x ct rows).
Proof.
  intros [Hst Hpd Hsp Hrows Hlow Hhigh].
  assert (Hlen : Z.of_nat (length (vs ++ [x])) = Z.of_nat (length vs) + 1)
    by (rewrite length_app; cbn; lia).
  assert (Hlow' : length rows = 0%nat \/ pow2 (length rows) <= Z.of_nat (length vs)).
  { destruct Hlow as [[_ ->] | H]; [left; reflexivity | right; exact H]. }
  unfold dumped, snapshot. rewrite Hpd, Hsp.
  destruct (Z.eqb_spec (Z.of_nat (length vs) + 1) (pow2 (S (length rows)))) as [E|E].
  - assert (Hl : length (rows ++ [[PyFloat (mean_of (mean_fed (stats ct) x));
                                   PyInt (Z.of_nat (length vs) + 1)]])
                 = S (length rows)) by (rewrite length_app; cbn; lia).
    split; cbn [stats paths_done stopping_point]; rewrite ?Hl.
    + rewrite Hst. unfold mean_fed. cbn. rewrite float_sum_snoc, Hlen. reflexivity.
    + lia.
    + rewrite (pow2_S (S (length rows))). lia.
    + unfold snapshots_upto. rewrite seq_S, map_app. cbn [map Nat.add].
      f_equal.
      * rewrite Hrows at 1. symmetry. apply snapshots_upto_snoc. exact Hlow'.
      * f_equal. unfold row_at. rewrite <- E.
        replace (Z.to_nat (Z.of_nat (length vs) + 1)) with (length (vs ++ [x])) by lia.
        rewrite firstn_all. rewrite Hst. unfold mean_of, mean_fed. cbn.
        rewrite float_sum_snoc. reflexivity.
    + right. lia.
    + rewrite (pow2_S (S (length rows))). pose proof (pow2_pos (S (length rows))). lia.
  - split; cbn [stats paths_done stopping_point].
    + rewrite Hst. unfold mean_fed. cbn. rewrite float_sum_snoc, Hlen. reflexivity.
    + lia.
    + reflexivity.
    + rewrite Hrows at 1. symmetry. apply snapshots_upto_snoc. exact Hlow'.
    + right. destruct Hlow as [[-> ->] | H]; [unfold pow2; cbn; lia | lia].
    + lia.
Qed.

Lemma fed_inv_bounds (vs : list float) (ct : table) (rows : list (list pyval)) :
  fed_inv vs ct rows ->
  StatisticsMean.paths_done (stats ct) = paths_done ct /\
  0 <= paths_done ct < stopping_point ct.
Proof.
  intros [Hst Hpd Hsp _ _ Hhigh]. rewrite Hst, Hpd, Hsp. cbn. lia.
Qed.

Lemma fed_inv_snapshots (vs : list float) (ct : table) (rows : list (list pyval)) :
  fed_inv vs ct rows -> rows = snapshots vs.
Proof.
  intros [_ _ _ Hrows Hlow Hhigh]. unfold snapshots.
  replace (Z.to_nat (Z.log2 (Z.of_nat (length vs)))) with (length rows); [exact Hrows|].
  destruct Hlow as [[-> ->] | Hlow]; [reflexivity|].
  rewrite (Z.log2_unique (Z.of_nat (length vs)) (Z.of_nat (length rows))); [lia | lia |].
  unfold pow2 in *. rewrite Nat2Z.inj_succ in Hhigh.
  replace (Z.of_nat (length rows) + 1) with (Z.succ (Z.of_nat (length rows))) by lia.
  lia.
Qed.

(** *** States of a table *)

Lemma init_run {Caller} (c : Caller) (h0 : heap) :
  init StatisticsMean.init (c, h0) = (Ok (fst (new_table h0)), (c, snd (new_table h0))).
Proof. reflexivity. Qed.

Lemma new_table_inv (h0 : heap) : table_inv (new_table h0) [].
Proof.
  exists []. split; [|apply fed_inv_init].
  exists (length h0), []. cbn. repeat split.
  - apply lookup_new_0.
  - constructor.
  - apply not_elem_of_nil.
Qed.

Lemma dump_inv (x : float) (σ : table * heap) (rows : list (list pyval)) :
  table_inv σ rows ->
  exists h',
    dump_one_result x σ = (Ok tt, (dumped x (fst σ), h')) /\
    table_inv (dumped x (fst σ), h') (snapshot x (fst σ) rows).
Proof.
  destruct σ as [ct h]. intros (vs & Hrec & Hfed). cbn [fst snd] in *.
  destruct (fed_inv_bounds _ _ _ Hfed) as [Hn Hb].
  destruct (dump_recorded x ct h rows Hrec ltac:(lia)) as (h' & Hrun & Hrec').
  exists h'. split; [exact Hrun|]. exists (vs ++ [x]). split; [exact Hrec'|].
  apply fed_inv_dump. exact Hfed.
Qed.

Lemma get_inv (σ : table * heap) (rows : list (list pyval)) :
  table_inv σ rows ->
  exists r new,
    get_results_so_far σ = (r, (fst σ, snd σ ++ new)) /\
    observe σ = answer (fst σ) rows /\
    table_inv (fst σ, snd σ ++ new) rows.
Proof.
  destruct σ as [ct h]. intros (vs & Hrec & Hfed). cbn [fst snd] in *.
  destruct (fed_inv_bounds _ _ _ Hfed) as [Hn Hb].
  destruct (get_recorded ct h rows Hrec ltac:(lia)) as (r & new & Hrun & Hobs).
  exists r, new. repeat split; [exact Hrun | exact Hobs |].
  exists vs. split; [apply recorded_grow; exact Hrec | exact Hfed].
Qed.

Lemma reachable_inv (σ : table * heap) :
  reachable σ -> exists rows, table_inv σ rows.
Proof.
  induction 1 as [h0 | σ x _ [rows IH] | σ _ [rows IH]].
  - exists []. apply new_table_inv.
  - destruct (dump_inv x σ rows IH) as (h' & Hrun & Hinv).
    rewrite Hrun. eauto.
  - destruct (get_inv σ rows IH) as (r & new & Hrun & _ & Hinv).
    rewrite Hrun. eauto.
Qed.

Lemma reached_inv (n : nat) (σ : table * heap) :
  reached n σ ->
  exists rows, table_inv σ rows /\ paths_done (fst σ) = Z.of_nat n.
Proof.
  induction 1 as [h0 | n σ x _ (rows & IH & Hn) | n σ _ (rows & IH & Hn)].
  - exists []. split; [apply new_table_inv | reflexivity].
  - destruct (dump_inv x σ rows IH) as (h' & Hrun & Hinv).
    rewrite Hrun. eexists. split; [exact Hinv|]. cbn. lia.
  - destruct (get_inv σ rows IH) as (r & new & Hrun & _ & Hinv).
    rewrite Hrun. exists rows. split; [exact Hinv | exact Hn].
Qed.

(** C10, for the table that the program builds, over a StatisticsMean.  After
    construction and [n] calls of [dump_one_result], with queries anywhere
    between, [paths_done] is [n] and is below [stopping_point] (the threshold
    doubles in the step in which the count reaches it), so the query always
    takes the branch of the live row.  For [n >= 1] the query returns, and
    what it returns is the rows on record and exactly one more row, tagged
    [n]; the fields and the record are as before.  For [n = 0] the branch is
    taken too, and it ends in the ZeroDivisionError of the inner accumulator:
    no row is returned. *)
Theorem live_row_after_dumps (n : nat) (σ : table * heap) :
  reached n σ ->
  paths_done (fst σ) = Z.of_nat n /\
  paths_done (fst σ) < stopping_point (fst σ) /\
  negb (paths_done (fst σ) =? stopping_point (fst σ)) = true /\
  exists rows,
    read_rows (snd σ) (results_so_far (fst σ)) = Some rows /\
    match n with
    | O => fst (get_results_so_far σ) = Raise ZeroDivisionError
    | S _ =>
        exists v σ',
          get_results_so_far σ = (Ok v, σ') /\
          read_rows (snd σ') v =
            Some (rows ++ [[PyFloat (mean_of (stats (fst σ))); PyInt (Z.of_nat n)]]) /\
          fst σ' = fst σ /\
          read_rows (snd σ') (results_so_far (fst σ')) = Some rows
    end.
Proof.
  intros Hreach. destruct (reached_inv n σ Hreach) as (rows & Hinv & Hpd).
  pose proof Hinv as (vs & Hrec & Hfed).
  destruct (fed_inv_bounds _ _ _ Hfed) as [Hn Hb].
  split; [exact Hpd|]. split; [lia|].
  split; [apply negb_true_iff, Z.eqb_neq; lia|].
  exists rows. split; [apply recorded_read; exact Hrec|].
  destruct (get_inv σ rows Hinv) as (r & new & Hrun & Hobs & Hinv').
  unfold observe, answer in Hobs. rewrite Hrun in *. rewrite Hn, Hpd in Hobs.
  destruct n as [|n].
  - cbn in Hobs. destruct r as [v|e]; [discriminate|]. injection Hobs as ->.
    reflexivity.
  - destruct (Z.eqb_spec (Z.of_nat (S n)) 0) as [E|_]; [lia|].
    destruct r as [v|e]; [|discriminate]. injection Hobs as Hobs.
    exists v, (fst σ, snd σ ++ new). repeat split.
    + cbn [fst snd]. rewrite Hobs. unfold live_row. rewrite Hpd. reflexivity.
    + destruct Hinv' as (vs' & Hrec' & _). apply recorded_read. exact Hrec'.
Qed.

Lemma live_row_after_dumps_witness :
  let σ := snd (dump_one_result 3 (snd (dump_one_result 1 (new_table [])))) in
  paths_done (fst σ) = Z.of_nat 2 /\
  paths_done (fst σ) < stopping_point (fst σ) /\
  negb (paths_done (fst σ) =? stopping_point (fst σ)) = true /\
  exists rows,
    read_rows (snd σ) (results_so_far (fst σ)) = Some rows /\
    exists v σ',
      get_results_so_far σ = (Ok v, σ') /\
      read_rows (snd σ') v =
        Some (rows ++ [[PyFloat (mean_of (stats (fst σ))); PyInt (Z.of_nat 2)]]) /\
      fst σ' = fst σ /\
      read_rows (snd σ') (results_so_far (fst σ')) = Some rows.
Proof.
  exact (live_row_after_dumps 2 _
           (reached_dump 1 _ 3 (reached_dump 0 _ 1 (reached_new [])))).
Defined.

(** C9, for the table that the program builds, over a StatisticsMean (over a
    table that wraps a table the query is not idempotent, see below).  From
    every state that the methods lead to, any number [k] of queries in a row
    leave the fields of the table as they are and change no object of the
    store (the store only grows by the lists the queries build), so the rows
    on record are the same rows; and the next query shows the caller what the
    first one did: the same rows, or the same exception. *)
Theorem query_idempotent (σ : table * heap) (k : nat) :
  reachable σ ->
  fst (after_queries k σ) = fst σ /\
  (exists new, snd (after_queries k σ) = snd σ ++ new) /\
  read_rows (snd (after_queries k σ)) (results_so_far (fst (after_queries k σ)))
    = read_rows (snd σ) (results_so_far (fst σ)) /\
  observe (after_queries k σ) = observe σ.
Proof.
  intros Hreach. destruct (reachable_inv σ Hreach) as [rows Hinv]. clear Hreach.
  assert (H : fst (after_queries k σ) = fst σ /\
              (exists new, snd (after_queries k σ) = snd σ ++ new) /\
              table_inv (after_queries k σ) rows).
  { revert σ Hinv. induction k as [|k IH]; intros σ Hinv.
    - cbn. repeat split; [|exact Hinv]. exists []. rewrite app_nil_r. reflexivity.
    - cbn [after_queries].
      destruct (get_inv σ rows Hinv) as (r & new & Hrun & _ & Hinv').
      rewrite Hrun. cbn [snd].
      destruct (IH _ Hinv') as (Hf & [new' Hs] & Hi). cbn [fst snd] in Hf, Hs.
      repeat split; [exact Hf | | exact Hi].
      exists (new ++ new'). rewrite Hs, app_assoc. reflexivity. }
  destruct H as (Hf & Hs & Hinv').
  repeat split; [exact Hf | exact Hs | |].
  - destruct Hinv as (vs & Hrec & _), Hinv' as (vs' & Hrec' & _).
    rewrite (recorded_read _ _ _ Hrec), (recorded_read _ _ _ Hrec'). reflexivity.
  - destruct (get_inv _ rows Hinv) as (_ & _ & _ & -> & _).
    destruct (get_inv _ rows Hinv') as (_ & _ & _ & -> & _).
    rewrite Hf. reflexivity.
Qed.

Lemma query_idempotent_witness :
  let σ := snd (dump_one_result 3 (snd (dump_one_result 1 (new_table [])))) in
  fst (after_queries 2 σ) = fst σ /\
  (exists new, snd (after_queries 2 σ) = snd σ ++ new) /\
  read_rows (snd (after_queries 2 σ)) (results_so_far (fst (after_queries 2 σ)))
    = read_rows (snd σ) (results_so_far (fst σ)) /\
  observe (after_queries 2 σ) = observe σ.
Proof.
  exact (query_idempotent _ 2 (reach_dump _ 3 (reach_dump _ 1 (reach_new [])))).
Defined.

(** *** A table that was created and fed *)

Lemma feed_fed (ws : list float) :
  forall (vs : list float) (ct : table) (h : heap) (rows : list (list pyval)),
    recorded h ct rows -> fed_inv vs ct rows ->
    exists ct' h' rows',
      feed ws (ct, h) = (Ok tt, (ct', h')) /\
      recorded h' ct' rows' /\ fed_inv (vs ++ ws) ct' rows'.
Proof.
  induction ws as [|x ws IH]; intros vs ct h rows Hrec Hfed.
  - exists ct, h, rows. rewrite app_nil_r. auto.
  - rewrite feed_cons.
    change (@StatisticsMC.dump_one_result table _ x (ct, h))
      with (dump_one_result x (ct, h)).
    destruct (dump_inv x (ct, h) rows) as (h1 & Hrun & (vs1 & Hrec1 & _));
      [exists vs; auto|].
    rewrite Hrun. cbn [fst snd] in *.
    destruct (IH (vs ++ [x]) _ _ _ Hrec1 (fed_inv_dump vs x ct rows Hfed))
      as (ct' & h' & rows' & Hrun' & Hrec' & Hfed').
    exists ct', h', rows'. rewrite <- app_assoc in Hfed'. auto.
Qed.

Lemma feed_table (vs : list float) (h0 : heap) :
  exists (ct : table) (h : heap),
    feed vs (new_table h0) = (Ok tt, (ct, h)) /\
    table_inv (ct, h) (snapshots vs) /\ fed_inv vs ct (snapshots vs).
Proof.
  destruct (new_table_inv h0) as (vs0 & Hrec0 & _).
  destruct (feed_fed vs [] _ _ _ Hrec0 (fed_inv_init _))
    as (ct & h & rows & Hrun & Hrec & Hfed).
  cbn [app] in Hfed. pose proof (fed_inv_snapshots _ _ _ Hfed) as ->.
  exists ct, h. repeat split; [exact Hrun | exists vs; auto | apply Hfed ..].
Qed.

(** The rows that a query of a table shows once [vs] has been fed. *)
Lemma fed_table_observe (vs : list float) (σ : table * heap) :
  table_inv σ (snapshots vs) -> fed_inv vs (fst σ) (snapshots vs) ->
  observe σ =
    if Z.of_nat (length vs) =? 0 then Raise ZeroDivisionError
    else Ok (Some (snapshots vs ++ [row_at vs (Z.of_nat (length vs))])).
Proof.
  intros Hinv Hfed.
  destruct (get_inv σ (snapshots vs) Hinv) as (_ & _ & _ & -> & _).
  unfold answer, live_row, mean_of, row_at.
  rewrite (fed_stats _ _ _ Hfed), (fed_paths _ _ _ Hfed). cbn.
  rewrite Nat2Z.id, firstn_all. reflexivity.
Qed.

(** The whole table after [vs]: the rows recorded at the stopping points
    2, 4, 8, ... that are not above the number of results, each with the mean
    of the results up to it, and then the live row with the mean of all the
    results, tagged with their number.  The live row is there at a stopping
    point too, where it repeats the row just recorded. *)
Theorem fed_table_rows (vs : list float) (h0 : heap) :
  exists σ,
    feed vs (new_table h0) = (Ok tt, σ) /\
    paths_done (fst σ) = Z.of_nat (length vs) /\
    read_rows (snd σ) (results_so_far (fst σ)) = Some (snapshots vs) /\
    observe σ =
      if Z.of_nat (length vs) =? 0 then Raise ZeroDivisionError
      else Ok (Some (snapshots vs ++ [row_at vs (Z.of_nat (length vs))])).
Proof.
  destruct (feed_table vs h0) as (ct & h & Hrun & Hinv & Hfed).
  exists (ct, h). split; [exact Hrun|]. cbn [fst snd].
  split; [apply Hfed|]. split.
  - destruct Hinv as (? & Hrec & _). apply recorded_read. exact Hrec.
  - apply fed_table_observe; assumption.
Qed.

(** C1 does not hold of the code at N = 2.  After two results [x] and [y]
    the query returns two rows, both tagged 2: the row recorded at the stopping
    point, and the live row once more (the test [paths_done != stopping_point]
    compares with a threshold that has doubled already). *)
Theorem duplicate_row_at_two (x y : float) (h0 : heap) :
  exists σ,
    feed [x; y] (new_table h0) = (Ok tt, σ) /\
    observe σ = Ok (Some [[PyFloat ((0 + x + y) / 2); PyInt 2];
                          [PyFloat ((0 + x + y) / 2); PyInt 2]]).
Proof.
  destruct (feed_table [x; y] h0) as (ct & h & Hrun & Hinv & Hfed).
  exists (ct, h). split; [exact Hrun|].
  rewrite (fed_table_observe [x; y]) by assumption. reflexivity.
Qed.

End ConvergenceTableFacts.

(** ** A table over a table *)

Example nested_table_init :
  (inner ← ConvergenceTable.init StatisticsMean.init;
   ConvergenceTable.init inner) (tt, []) =
  (Ok (fst nested_table), (tt, snd nested_table)).
Proof. reflexivity. Qed.

(** Over an accumulator that hands out its own row objects the query is not
    idempotent.  The outer table of [ConvergenceTable(ConvergenceTable(
    StatisticsMean()))] records the row objects of the inner one, and each
    query appends the count of paths to the rows that the inner query returns,
    the inner table's recorded row among them: after the results 1.0 and 3.0
    the first row on the outer record gets one cell longer with every query,
    and so does the first row of every list returned so far. *)
Theorem nested_table_query_changes_rows :
  let σ := snd (feed [1; 3]%float nested_table) in
  let q1 := ConvergenceTable.get_results_so_far σ in
  let q2 := ConvergenceTable.get_results_so_far (snd q1) in
  let recorded_rows h := read_rows h (ConvergenceTable.results_so_far (fst σ)) in
  recorded_rows (snd σ) =
    Some [[PyFloat 2; PyInt 2; PyInt 2]; [PyFloat 2; PyInt 2; PyInt 2]] /\
  recorded_rows (snd (snd q1)) =
    Some [[PyFloat 2; PyInt 2; PyInt 2; PyInt 2]; [PyFloat 2; PyInt 2; PyInt 2]] /\
  recorded_rows (snd (snd q2)) =
    Some [[PyFloat 2; PyInt 2; PyInt 2; PyInt 2; PyInt 2]; [PyFloat 2; PyInt 2; PyInt 2]] /\
  (exists v1, fst q1 = Ok v1 /\
     read_rows (snd (snd q1)) v1 =
       Some [[PyFloat 2; PyInt 2; PyInt 2; PyInt 2]; [PyFloat 2; PyInt 2; PyInt 2];
             [PyFloat 2; PyInt 2; PyInt 2; PyInt 2]; [PyFloat 2; PyInt 2; PyInt 2]]) /\
  (exists v2, fst q2 = Ok v2 /\
     read_rows (snd (snd q2)) v2 =
       Some [[PyFloat 2; PyInt 2; PyInt 2; PyInt 2; PyInt 2]; [PyFloat 2; PyInt 2; PyInt 2];
             [PyFloat 2; PyInt 2; PyInt 2; PyInt 2; PyInt 2]; [PyFloat 2; PyInt 2; PyInt 2]]).
Proof.
  cbv zeta. repeat split; try (vm_compute; reflexivity);
    eexists; (split; [vm_compute; reflexivity | vm_compute; reflexivity]).
Qed.

(** The same for any two results: whatever is fed, a query of the outer table
    writes into rows that are on record.  After two results [x] and [y], with
    mean [m], the outer record holds the inner table's recorded row [[m, 2]]
    tagged once, and its copy; every query of the outer table appends one more
    tag to the first of them, in the record and in every list returned
    before. *)
Theorem nested_table_rows_grow (x y : float) :
  let m := ((0 + x + y) / float_of_int 2)%float in
  let σ := snd (feed [x; y] nested_table) in
  let q1 := ConvergenceTable.get_results_so_far σ in
  let q2 := ConvergenceTable.get_results_so_far (snd q1) in
  let recorded_rows h := read_rows h (ConvergenceTable.results_so_far (fst σ)) in
  recorded_rows (snd σ) =
    Some [[PyFloat m; PyInt 2; PyInt 2]; [PyFloat m; PyInt 2; PyInt 2]] /\
  recorded_rows (snd (snd q1)) =
    Some [[PyFloat m; PyInt 2; PyInt 2; PyInt 2]; [PyFloat m; PyInt 2; PyInt 2]] /\
  recorded_rows (snd (snd q2)) =
    Some [[PyFloat m; PyInt 2; PyInt 2; PyInt 2; PyInt 2]; [PyFloat m; PyInt 2; PyInt 2]] /\
  exists v1 v2,
    fst q1 = Ok v1 /\ fst q2 = Ok v2 /\
    read_rows (snd (snd q1)) v1 =
      Some [[PyFloat m; PyInt 2; PyInt 2; PyInt 2]; [PyFloat m; PyInt 2; PyInt 2];
            [PyFloat m; PyInt 2; PyInt 2; PyInt 2]; [PyFloat m; PyInt 2; PyInt 2]] /\
    read_rows (snd (snd q2)) v1 =
      Some [[PyFloat m; PyInt 2; PyInt 2; PyInt 2; PyInt 2]; [PyFloat m; PyInt 2; PyInt 2];
            [PyFloat m; PyInt 2; PyInt 2; PyInt 2; PyInt 2]; [PyFloat m; PyInt 2; PyInt 2]] /\
    read_rows (snd (snd q2)) v2 =
      Some [[PyFloat m; PyInt 2; PyInt 2; PyInt 2; PyInt 2]; [PyFloat m; PyInt 2; PyInt 2];
            [PyFloat m; PyInt 2; PyInt 2; PyInt 2; PyInt 2]; [PyFloat m; PyInt 2; PyInt 2]].
Proof.
  cbv zeta. split; [|split; [|split]]; try (vm_compute; reflexivity).
  exists (PyRef 7%nat), (PyRef 11%nat).
  split; [|split; [|split; [|split]]]; vm_compute; reflexivity.
Qed.

(** C9, as the claim has it, fails: not every table has an idempotent query.
    The table over a table above is built by the two constructors and fed two
    results by [dump_one_result]; one query then changes a row that is on its
    record, and the next query does not show what the first one showed. *)
Lemma nested_query_not_idempotent :
  (let σ := snd (feed [1; 3]%float nested_table) in
   let q1 := ConvergenceTable.get_results_so_far σ in
   let q2 := ConvergenceTable.get_results_so_far (snd q1) in
   read_rows (snd σ) (ConvergenceTable.results_so_far (fst σ)) =
     Some [[PyFloat 2; PyInt 2; PyInt 2]; [PyFloat 2; PyInt 2; PyInt 2]] /\
   read_rows (snd (snd q1)) (ConvergenceTable.results_so_far (fst (snd q1))) =
     Some [[PyFloat 2; PyInt 2; PyInt 2; PyInt 2]; [PyFloat 2; PyInt 2; PyInt 2]] /\
   exists v1 v2,
     fst q1 = Ok v1 /\ fst q2 = Ok v2 /\
     read_rows (snd (snd q1)) v1 <> read_rows (snd (snd q2)) v2) /\
  ~ (forall (Inner : Type) (acc : StatisticsMC Inner) (stats : Inner) (h0 : heap)
            (vs : list float),
       let σ := snd (feed vs (ConvergenceTable.mk stats (PyRef (length h0)) 2 0,
                              h0 ++ [[]])) in
       let q := ConvergenceTable.get_results_so_far σ in
       read_rows (snd (snd q)) (ConvergenceTable.results_so_far (fst (snd q))) =
       read_rows (snd σ) (ConvergenceTable.results_so_far (fst σ))).
Proof.
  split.
  - cbv zeta. split; [vm_compute; reflexivity|]. split; [vm_compute; reflexivity|].
    exists (PyRef 7%nat), (PyRef 11%nat).
    split; [vm_compute; reflexivity|]. split; [vm_compute; reflexivity|].
    vm_compute. discriminate.
  - intros C.
    specialize (C TableStates.table _ (ConvergenceTable.mk StatisticsMean.init (PyRef 0%nat) 2 0)
                  [[]] [1; 3]%float).
    vm_compute in C. discriminate.
Qed.

(** C10, as the claim has it, fails: the query does not always return one
    row more than the record holds.  For a table that was fed nothing the
    branch of the live row ends in the ZeroDivisionError of the inner
    accumulator and nothing is returned; and the table over a table above
    returns four rows with two on its record. *)
Lemma new_table_query_no_rows :
  fst (ConvergenceTable.get_results_so_far (TableStates.new_table [])) =
    Raise ZeroDivisionError /\
  (let σ := snd (feed [1; 3]%float nested_table) in
   let q := ConvergenceTable.get_results_so_far σ in
   exists v,
     fst q = Ok v /\
     option_map length (read_rows (snd (snd q)) v) = Some 4%nat /\
     option_map length
       (read_rows (snd σ) (ConvergenceTable.results_so_far (fst σ))) = Some 2%nat) /\
  ~ (forall σ : TableStates.table * heap,
       TableStates.reachable σ ->
       exists v σ' rows row,
         ConvergenceTable.get_results_so_far σ = (Ok v, σ') /\
         read_rows (snd σ) (ConvergenceTable.results_so_far (fst σ)) = Some rows /\
         read_rows (snd σ') v = Some (rows ++ [row])).
Proof.
  split; [vm_compute; reflexivity|]. split.
  - cbv zeta. exists (PyRef 7%nat).
    split; [vm_compute; reflexivity|]. split; vm_compute; reflexivity.
  - intros C.
    destruct (C _ (TableStates.reach_new [])) as (v & σ' & rows & row & E & _).
    vm_compute in E. discriminate.
Qed.

(** ** The simulation loop *)

Section SimulationFacts.
Import TableStates ConvergenceTableFacts.

Context {runtime : Runtime}.

Lemma option_price_run {Vol Rate Gatherer : Type}
    `{Parameters Vol} `{Parameters Rate} `{StatisticsMC Gatherer}
    (the_option : VanillaOption.t) (spot : float) (vol : Vol) (r : Rate)
    (number_of_paths : Z) (seed : option Z) (g : Gatherer) (g0 : rng) (h : heap) :
  option_price the_option spot vol r number_of_paths seed ((g, g0), h) =
  match prologue the_option spot vol r with
  | Raise e => (Raise e, ((g, seeded seed g0), h))
  | Ok (root_variance, moved_spot, discounting) =>
      paths_loop the_option root_variance moved_spot discounting
        (Z.to_nat number_of_paths) 0 ((g, seeded seed g0), h)
  end.
Proof.
  unfold option_price, prologue. rewrite bind_run.
  assert (Hseed :
    match seed with
    | Some seed0 => on_caller (seed_random seed0)
    | None => mret tt
    end ((g, g0), h) = (Ok tt, ((g, seeded seed g0), h))) by (destruct seed; reflexivity).
  rewrite Hseed. rewrite bind_run. unfold lift_result at 1.
  destruct (math_sqrt _) as [rv|e]; [|reflexivity].
  rewrite bind_run. unfold lift_result at 1.
  destruct (math_exp (_ + _)) as [e1|e]; [|reflexivity].
  rewrite bind_run. unfold lift_result at 1.
  destruct (math_exp (- _)) as [d|e]; reflexivity.
Qed.

(** One turn of the loop. *)
Lemma paths_loop_S {Gatherer : Type} `{StatisticsMC Gatherer}
    (the_option : VanillaOption.t) (rv moved d : float) (n i : nat)
    (g : Gatherer) (g0 : rng) (h : heap) :
  paths_loop the_option rv moved d (S n) i ((g, g0), h) =
  match path_value the_option rv moved d (fst (random_gauss g0)) with
  | Raise e => (Raise e, ((g, snd (random_gauss g0)), h))
  | Ok x =>
      match StatisticsMC.dump_one_result x (g, h) with
      | (Ok _, (g', h')) =>
          paths_loop the_option rv moved d n (S i) ((g', snd (random_gauss g0)), h')
      | (Raise e, (g', h')) => (Raise e, ((g', snd (random_gauss g0)), h'))
      end
  end.
Proof.
  unfold paths_loop. cbn [for_range]. rewrite !bind_run.
  unfold on_caller at 1, gauss_0_1 at 1. unfold_M. cbn [fst snd].
  unfold path_value.
  destruct (math_exp (rv * fst (random_gauss g0))) as [e|e]; [|reflexivity].
  destruct (float_mul d _) as [x|e']; [|reflexivity].
  unfold on_local at 1. cbn [fst snd].
  destruct (StatisticsMC.dump_one_result x (g, h)) as [[u|e''] [g' h']]; reflexivity.
Qed.

(** The loop feeds the values of the paths, in the order of the draws, and
    does nothing else to the gatherer and to the store. *)
Lemma paths_loop_run {Gatherer : Type} `{StatisticsMC Gatherer}
    (the_option : VanillaOption.t) (rv moved d : float) (n : nat) :
  forall (i : nat) (g : Gatherer) (g0 : rng) (h : heap),
    match feed (fst (fst (path_values the_option rv moved d n g0))) (g, h) with
    | (Ok _, (g', h')) =>
        paths_loop the_option rv moved d n i ((g, g0), h) =
        (match snd (fst (path_values the_option rv moved d n g0)) with
         | None => Ok tt
         | Some e => Raise e
         end,
         ((g', snd (path_values the_option rv moved d n g0)), h'))
    | (Raise e, (g', h')) =>
        exists g1, paths_loop the_option rv moved d n i ((g, g0), h) =
                   (Raise e, ((g', g1), h'))
    end.
Proof.
  induction n as [|n IH]; intros i g g0 h.
  - reflexivity.
  - rewrite paths_loop_S. cbn [path_values].
    destruct (path_value the_option rv moved d (fst (random_gauss g0))) as [x|e];
      [|reflexivity].
    destruct (path_values the_option rv moved d n (snd (random_gauss g0)))
      as [[vs err] g2] eqn:Hpv.
    cbn [fst snd]. rewrite feed_cons.
    destruct (StatisticsMC.dump_one_result x (g, h)) as [[u|e''] [g' h']].
    + specialize (IH (S i) g' (snd (random_gauss g0)) h'). rewrite Hpv in IH.
      cbn [fst snd] in IH. exact IH.
    + eexists. reflexivity.
Qed.

Lemma draws_length (n : nat) : forall g : rng, length (draws n g) = n.
Proof. induction n as [|n IH]; intros g; cbn; [|rewrite IH]; reflexivity. Qed.

Lemma path_values_defined (the_option : VanillaOption.t) (rv moved d : float)
    (xs : list float) :
  forall (n : nat) (g : rng),
    Forall2 (fun z x => path_value the_option rv moved d z = Ok x) (draws n g) xs ->
    path_values the_option rv moved d n g = (xs, None, after_draws n g).
Proof.
  induction xs as [|x xs IH]; intros [|n] g Hxs; inversion Hxs; subst.
  - reflexivity.
  - cbn [path_values after_draws]. rewrite H2, (IH _ _ H4). reflexivity.
Qed.

(** C2, amended.  For a number of paths [N > 0], once the root of the variance
    [sqrt(V)], the drift factor [exp(R + -0.5 * V)] (the claim's
    [exp(R - V/2)]) and the discount [exp(-R)] are computed, with
    [R = rate.integral(0, expiry)] and [V = vol.integral_square(0, expiry)],
    and [x_i = exp(-R) * payoff(spot * exp(R + -0.5 * V) * exp(sqrt(V) * z_i))]
    for the i-th draw [z_i] of the random source, all without an exception of
    [math.sqrt] or [math.exp], [option_price] gives the accumulator exactly
    the N values [x_1 .. x_N], in this order, through [dump_one_result], and
    does nothing else to it: its run is the run of these N calls, whatever
    the accumulator is. *)
Theorem option_price_feeds {Vol Rate Gatherer : Type}
    `{Parameters Vol} `{Parameters Rate} `{StatisticsMC Gatherer}
    (the_option : VanillaOption.t) (spot : float) (vol : Vol) (r : Rate)
    (number_of_paths : Z) (seed : option Z) (g : Gatherer) (g0 : rng) (h : heap)
    (root_variance drift discounting : float) (xs : list float) :
  let R := integral r 0 (VanillaOption.expiry the_option) in
  let V := integral_square vol 0 (VanillaOption.expiry the_option) in
  let zs := draws (Z.to_nat number_of_paths) (seeded seed g0) in
  0 < number_of_paths ->
  math_sqrt V = Ok root_variance ->
  math_exp (R + -0.5 * V) = Ok drift ->
  math_exp (- R) = Ok discounting ->
  Forall2 (fun z x => exists e,
             math_exp (root_variance * z) = Ok e /\
             float_mul discounting
               (calc (VanillaOption.pay_off the_option) (spot * drift * e)) = Ok x)
          zs xs ->
  Z.of_nat (length xs) = number_of_paths /\
  match feed xs (g, h) with
  | (Ok _, (g', h')) =>
      option_price the_option spot vol r number_of_paths seed ((g, g0), h) =
      (Ok tt, ((g', after_draws (Z.to_nat number_of_paths) (seeded seed g0)), h'))
  | (Raise e, (g', h')) =>
      exists g1,
        option_price the_option spot vol r number_of_paths seed ((g, g0), h) =
        (Raise e, ((g', g1), h'))
  end.
Proof.
  intros R V zs HN Hsqrt Hdrift Hdisc Hxs.
  split.
  - apply Forall2_length in Hxs. unfold zs in Hxs.
    rewrite draws_length in Hxs. lia.
  - rewrite option_price_run. unfold prologue, VanillaOption.get_expiry.
    fold R V. rewrite Hsqrt, Hdrift, Hdisc.
    assert (Hpv : path_values the_option root_variance (spot * drift) discounting
                    (Z.to_nat number_of_paths) (seeded seed g0) =
                  (xs, None, after_draws (Z.to_nat number_of_paths) (seeded seed g0))).
    { apply path_values_defined. eapply Forall2_impl; [exact Hxs|].
      intros z x (e & He & Hx). unfold path_value, VanillaOption.calc_pay_off.
      rewrite He. exact Hx. }
    pose proof (paths_loop_run the_option root_variance (spot * drift) discounting
                  (Z.to_nat number_of_paths) 0 g (seeded seed g0) h) as Hloop.
    rewrite Hpv in Hloop. cbn [fst snd] in Hloop. exact Hloop.
Qed.

(** C8, amended.  With a number of paths that is zero or negative,
    [option_price] checks nothing: [range(number_of_paths)] is empty, the body
    of the loop never runs, no value is fed, and the accumulator and the
    store are left as they were.  The call returns normally, unless one of
    [math.sqrt] and [math.exp] raises in the computation before the loop. *)
Theorem option_price_without_paths {Vol Rate Gatherer : Type}
    `{Parameters Vol} `{Parameters Rate} `{StatisticsMC Gatherer}
    (the_option : VanillaOption.t) (spot : float) (vol : Vol) (r : Rate)
    (number_of_paths : Z) (seed : option Z) (g : Gatherer) (g0 : rng) (h : heap) :
  number_of_paths <= 0 ->
  option_price the_option spot vol r number_of_paths seed ((g, g0), h) =
  (match prologue the_option spot vol r with
   | Ok _ => Ok tt
   | Raise e => Raise e
   end, ((g, seeded seed g0), h)).
Proof.
  intros HN. rewrite option_price_run.
  destruct (prologue the_option spot vol r) as [[[rv moved] d]|e]; [|reflexivity].
  replace (Z.to_nat number_of_paths) with 0%nat by lia. reflexivity.
Qed.

(** *** The pricing facade *)

(** A run of the statistics functions: the computation before the loop, then
    a new table fed with the values of the paths. *)
Lemma price_stats_run (pay_off : PayOff) (expiry spot vol r : float)
    (number_of_paths : Z) (seed : option Z) (g0 : rng) (h0 : heap) :
  price_stats pay_off expiry spot vol r number_of_paths seed (g0, h0) =
  match prologue (VanillaOption.mk expiry pay_off) spot
          (ParametersConstant.init vol) (ParametersConstant.init r) with
  | Raise e => (Raise e, (seeded seed g0, h0 ++ [[]]))
  | Ok (rv, moved, d) =>
      let pv := path_values (VanillaOption.mk expiry pay_off) rv moved d
                  (Z.to_nat number_of_paths) (seeded seed g0) in
      let fed := snd (feed (fst (fst pv)) (new_table h0)) in
      (match snd (fst pv) with
       | None => Ok (fst fed)
       | Some e => Raise e
       end, (snd pv, snd fed))
  end.
Proof.
  unfold price_stats. rewrite bind_run, init_run. rewrite bind_run.
  unfold with_local at 1. cbn [fst snd]. rewrite option_price_run.
  destruct (prologue _ spot _ _) as [[[rv moved] d]|e]; [|reflexivity].
  cbv zeta.
  pose proof (paths_loop_run (VanillaOption.mk expiry pay_off) rv moved d
                (Z.to_nat number_of_paths) 0
                (ConvergenceTable.mk StatisticsMean.init (PyRef (length h0)) 2 0)
                (seeded seed g0) (h0 ++ [[]])) as Hloop.
  destruct (feed_table
              (fst (fst (path_values (VanillaOption.mk expiry pay_off) rv moved d
                           (Z.to_nat number_of_paths) (seeded seed g0)))) h0)
    as (ct & h & Hfeed & _).
  unfold new_table in Hfeed |- *. cbn [fst snd]. rewrite Hfeed in Hloop |- *.
  rewrite Hloop. cbn [fst snd].
  destruct (snd (fst (path_values _ rv moved d _ _))); reflexivity.
Qed.

Lemma fed_tables_same (vs : list float) (σ1 σ2 : table * heap) :
  table_inv σ1 (snapshots vs) -> fed_inv vs (fst σ1) (snapshots vs) ->
  table_inv σ2 (snapshots vs) -> fed_inv vs (fst σ2) (snapshots vs) ->
  same_table σ1 σ2.
Proof.
  intros Hinv1 Hfed1 Hinv2 Hfed2.
  assert (Hst : ConvergenceTable.stats (fst σ1) = ConvergenceTable.stats (fst σ2))
    by (rewrite (fed_stats _ _ _ Hfed1), (fed_stats _ _ _ Hfed2); reflexivity).
  assert (Hpd : ConvergenceTable.paths_done (fst σ1) = ConvergenceTable.paths_done (fst σ2))
    by (rewrite (fed_paths _ _ _ Hfed1), (fed_paths _ _ _ Hfed2); reflexivity).
  repeat split.
  - exact Hst.
  - rewrite (fed_stop _ _ _ Hfed1), (fed_stop _ _ _ Hfed2). reflexivity.
  - exact Hpd.
  - exists (snapshots vs).
    destruct Hinv1 as (? & Hrec1 & _), Hinv2 as (? & Hrec2 & _).
    split; apply recorded_read; assumption.
  - destruct (get_inv _ _ Hinv1) as (_ & _ & _ & -> & _).
    destruct (get_inv _ _ Hinv2) as (_ & _ & _ & -> & _).
    unfold answer, live_row. rewrite Hst, Hpd. reflexivity.
Qed.

Lemma price_stats_seeded (pay_off : PayOff) (expiry spot vol r : float)
    (number_of_paths : Z) (seed : Z) (g1 g2 : rng) (h1 h2 : heap) :
  same_run
    (price_stats pay_off expiry spot vol r number_of_paths (Some seed) (g1, h1))
    (price_stats pay_off expiry spot vol r number_of_paths (Some seed) (g2, h2)).
Proof.
  rewrite !price_stats_run. cbn [seeded].
  destruct (prologue _ spot _ _) as [[[rv moved] d]|e]; [|cbn; auto].
  cbv zeta.
  destruct (path_values _ rv moved d _ _) as [[vs err] g'].
  cbn [fst snd].
  destruct (feed_table vs h1) as (ct1 & h1' & -> & Hinv1 & Hfed1).
  destruct (feed_table vs h2) as (ct2 & h2' & -> & Hinv2 & Hfed2).
  cbn [fst snd]. destruct err as [e|]; cbn; [auto|].
  split; [reflexivity|]. apply (fed_tables_same vs); assumption.
Qed.

(** C5. Two calls of [call_price_stats], and two of [put_price_stats], with
    the same strike, expiry, spot, vol, rate and number of paths and the same
    seed that is not None, have the same outcome whatever the states of the
    random module and of the store they start in: the values they feed are
    the same values in the same order, and they end in the same exception or
    in tables with the same contents, field by field and row by row. *)
Theorem seeded_runs_agree (strike expiry spot vol r : float)
    (number_of_paths : Z) (seed : Z) (g1 g2 : rng) (h1 h2 : heap) :
  (forall the_option rv moved d,
     path_values the_option rv moved d (Z.to_nat number_of_paths)
       (seeded (Some seed) g1) =
     path_values the_option rv moved d (Z.to_nat number_of_paths)
       (seeded (Some seed) g2)) /\
  same_run
    (call_price_stats strike expiry spot vol r number_of_paths (Some seed) (g1, h1))
    (call_price_stats strike expiry spot vol r number_of_paths (Some seed) (g2, h2)) /\
  same_run
    (put_price_stats strike expiry spot vol r number_of_paths (Some seed) (g1, h1))
    (put_price_stats strike expiry spot vol r number_of_paths (Some seed) (g2, h2)).
Proof.
  split; [reflexivity|]. split.
  - apply (price_stats_seeded (PayOffCall strike)).
  - apply (price_stats_seeded (PayOffPut strike)).
Qed.



(** The query of a table that was fed, down to the cells: the returned list
    is a new object, and its last cell refers to the live row. *)
Lemma get_live_cells (σ : table * heap) (rows : list (list pyval)) :
  table_inv σ rows ->
  ConvergenceTable.paths_done (fst σ) <> 0 ->
  exists refs,
    ConvergenceTable.get_results_so_far σ =
    (Ok (PyRef (length (snd σ))),
     (fst σ,
      snd σ ++ [refs ++ [PyRef (S (length (snd σ)))];
                live_row (fst σ);
                [PyRef (S (length (snd σ)))]])).
Proof.
  destruct σ as [ct h]. intros (vs & Hrec & Hfed) Hpd. cbn [fst snd] in *.
  destruct (fed_inv_bounds _ _ _ Hfed) as [Hn Hb].
  destruct Hrec as (L & refs & Hrs & HL & _).
  destruct ct as [st rs sp pd]. cbn in Hrs, Hn, Hb, Hpd. subst rs.
  exists refs. apply get_run_live; [lia | lia | exact HL].
Qed.

Lemma last_price_run (ct : table) (g : rng) (h : heap) (rows : list (list pyval)) :
  table_inv (ct, h) rows ->
  ConvergenceTable.paths_done ct <> 0 ->
  exists h',
    last_price ct (g, h) = (Ok (PyFloat (mean_of (ConvergenceTable.stats ct))), (g, h')) /\
    observe (ct, h) = Ok (Some (rows ++ [live_row ct])).
Proof.
  intros Hinv Hpd.
  destruct (get_live_cells _ _ Hinv Hpd) as (refs & Hget). cbn [fst snd] in Hget.
  destruct (get_inv _ _ Hinv) as (_ & _ & _ & Hobs & _).
  pose proof Hinv as (vs & _ & Hfed).
  destruct (fed_inv_bounds _ _ _ Hfed) as [Hn _].
  eexists. split.
  - unfold last_price. rewrite bind_run.
    unfold with_local at 1, on_local at 1. cbn [fst snd].
    change (@StatisticsMC.get_results_so_far table _ (ct, h))
      with (ConvergenceTable.get_results_so_far (ct, h)).
    rewrite Hget. cbn [fst snd].
    rewrite bind_run, (py_getitem_last (length h) refs (PyRef (S (length h))))
      by apply lookup_new_0.
    rewrite bind_run.
    rewrite (py_getitem_run (S (length h)) (live_row ct) 0
               (PyFloat (mean_of (ConvergenceTable.stats ct))));
      [reflexivity | apply lookup_new_1 | reflexivity].
  - rewrite Hobs. unfold answer. rewrite Hn. cbn [fst].
    destruct (Z.eqb_spec (ConvergenceTable.paths_done ct) 0); [contradiction|reflexivity].
Qed.



End SimulationFacts.

(** ** Concrete runs *)

(** C2, as the claim has it, fails: not every option has its N values fed.
    With a negative expiry the variance is negative, [math.sqrt] raises
    ValueError before the loop, and the accumulator gets nothing. *)
Lemma negative_variance_feeds_nothing :
  option_price (runtime := tape_runtime)
    (VanillaOption.mk (-1) (PayOffCall 15)) 30
    (ParametersConstant.init 0.25) (ParametersConstant.init 0.0625)
    2 (Some 1234) ((StatisticsMean.init, []), []) =
  (Raise ValueError, ((StatisticsMean.init, tape_seed 1234), [])) /\
  ~ (forall (runtime : Runtime) (the_option : VanillaOption.t) (spot : float)
            (vol r : ParametersConstant.t) (number_of_paths : Z) (seed : option Z)
            (g : StatisticsMean.t) (g0 : rng) (h : heap),
       0 < number_of_paths ->
       exists xs g' g1 h',
         Z.of_nat (length xs) = number_of_paths /\
         feed xs (g, h) = (Ok tt, (g', h')) /\
         option_price the_option spot vol r number_of_paths seed ((g, g0), h) =
         (Ok tt, ((g', g1), h'))).
Proof.
  split; [vm_compute; reflexivity|].
  intros C.
  destruct (C tape_runtime (VanillaOption.mk (-1) (PayOffCall 15)) 30%float
              (ParametersConstant.init 0.25) (ParametersConstant.init 0.0625)
              2 (Some 1234) StatisticsMean.init [] [] ltac:(lia))
    as (xs & g' & g1 & h' & _ & _ & E).
  vm_compute in E. discriminate.
Qed.

Lemma option_price_feeds_witness :
  Z.of_nat (length [15; 15]%float) = 2 /\
  match feed [15; 15]%float (StatisticsMean.init, []) with
  | (Ok _, (g', h')) =>
      option_price (runtime := tape_runtime)
        (VanillaOption.mk 0 (PayOffCall 15)) 30
        (ParametersConstant.init 0.25) (ParametersConstant.init 0.0625)
        2 (Some 1234) ((StatisticsMean.init, []), []) =
      (Ok tt, ((g', after_draws (runtime := tape_runtime) (Z.to_nat 2)
                      (seeded (runtime := tape_runtime) (Some 1234) [])), h'))
  | (Raise e, (g', h')) =>
      exists g1,
        option_price (runtime := tape_runtime)
          (VanillaOption.mk 0 (PayOffCall 15)) 30
          (ParametersConstant.init 0.25) (ParametersConstant.init 0.0625)
          2 (Some 1234) ((StatisticsMean.init, []), []) =
        (Raise e, ((g', g1), h'))
  end.
Proof.
  apply (option_price_feeds (runtime := tape_runtime)
           (VanillaOption.mk 0 (PayOffCall 15)) 30
           (ParametersConstant.init 0.25) (ParametersConstant.init 0.0625)
           2 (Some 1234) StatisticsMean.init [] [] 0 1 1 [15; 15]%float).
  - lia.
  - reflexivity.
  - reflexivity.
  - reflexivity.
  - repeat constructor; exists 1%float; split; reflexivity.
Defined.

(** C8, as the claim has it, fails: with no path to run, [option_price]
    returns without any error.  (At expiry 0 the two exponentials before the
    loop are [math.exp] of 0.0 and of -0.0.) *)
Lemma zero_paths_no_error :
  ~ (forall number_of_paths : Z, number_of_paths <= 0 ->
       exists e σ',
         option_price (runtime := tape_runtime)
           (VanillaOption.mk 0 (PayOffCall 15)) 30
           (ParametersConstant.init 0.25) (ParametersConstant.init 0.0625)
           number_of_paths (Some 1234) ((StatisticsMean.init, []), []) =
         (Raise e, σ')).
Proof.
  intros C. destruct (C 0 ltac:(lia)) as (e & σ' & E).
  vm_compute in E. discriminate.
Qed.

Lemma option_price_without_paths_witness :
  option_price (runtime := tape_runtime)
    (VanillaOption.mk 0 (PayOffCall 15)) 30
    (ParametersConstant.init 0.25) (ParametersConstant.init 0.0625)
    (-3) None ((StatisticsMean.init, []), []) =
  (match prologue (runtime := tape_runtime) (VanillaOption.mk 0 (PayOffCall 15)) 30
           (ParametersConstant.init 0.25) (ParametersConstant.init 0.0625) with
   | Ok _ => Ok tt
   | Raise e => Raise e
   end, ((StatisticsMean.init, seeded (runtime := tape_runtime) None []), [])).
Proof.
  apply (option_price_without_paths (runtime := tape_runtime)
           (VanillaOption.mk 0 (PayOffCall 15)) 30
           (ParametersConstant.init 0.25) (ParametersConstant.init 0.0625)
           (-3) None StatisticsMean.init [] []).
  lia.
Defined.


(** ** The schedule of a table over any accumulator *)

Module AnyTableFacts.
Section AnyTableFacts.
Import ConvergenceTable AnyTable.

Context {Inner : Type} `{StatisticsMC Inner}.

Local Abbreviation keeps_fields := (AnyTable.keeps_fields (Inner := Inner)).

Lemma keeps_bind {A B} (m : M (ConvergenceTable.t Inner) A)
    (k : A -> M (ConvergenceTable.t Inner) B) :
  keeps_fields m -> (forall a, keeps_fields (k a)) -> keeps_fields (m ≫= k).
Proof.
  intros Hm Hk σ. rewrite bind_run. specialize (Hm σ).
  destruct (m σ) as [[a|e] σ']; cbn [fst snd] in *; [|exact Hm].
  rewrite (Hk a σ'). exact Hm.
Qed.

Lemma keeps_ret {A} (a : A) :
  keeps_fields (mret a : M (ConvergenceTable.t Inner) A).
Proof. intros σ. reflexivity. Qed.

Lemma keeps_on_stats {A} (m : M Inner A) : keeps_fields (on_stats m).
Proof.
  intros [ct h]. unfold on_stats. cbn [fst snd].
  destruct (m (stats ct, h)) as [r [inner h']]. reflexivity.
Qed.

Lemma keeps_as_list e v : keeps_fields (as_list e v).
Proof.
  intros [ct h]. unfold as_list. cbn [fst snd].
  destruct v as [f|z|l]; try reflexivity. destruct (h !! l); reflexivity.
Qed.

Lemma keeps_py_len v : keeps_fields (py_len v).
Proof.
  apply keeps_bind; [apply keeps_as_list | intros lv σ; reflexivity].
Qed.

Lemma keeps_py_getitem v i : keeps_fields (py_getitem v i).
Proof.
  apply keeps_bind; [apply keeps_as_list|]. intros lv σ. cbv zeta.
  destruct (_ <? 0); [reflexivity|]. destruct (_ !! _); reflexivity.
Qed.

Lemma keeps_py_append v w : keeps_fields (py_append v w).
Proof.
  apply keeps_bind; [apply keeps_as_list | intros lv σ; reflexivity].
Qed.

Lemma keeps_py_copy v : keeps_fields (py_copy v).
Proof.
  apply keeps_bind; [apply keeps_as_list | intros lv σ; reflexivity].
Qed.

Lemma keeps_get_self {B} (k : ConvergenceTable.t Inner -> M (ConvergenceTable.t Inner) B) :
  (forall ct, keeps_fields (k ct)) -> keeps_fields (get_self ≫= k).
Proof. intros Hk σ. rewrite bind_run. cbn [get_self]. apply Hk. Qed.

Lemma keeps_tag_and_append this_result target i :
  keeps_fields (tag_and_append this_result target i).
Proof.
  unfold tag_and_append.
  apply keeps_bind; [apply keeps_py_getitem | intros row].
  apply keeps_get_self. intros ct.
  apply keeps_bind; [apply keeps_py_append | intros _].
  apply keeps_bind; [apply keeps_py_getitem | intros row'].
  apply keeps_py_append.
Qed.

Lemma keeps_for_range n (body : nat -> M (ConvergenceTable.t Inner) unit) :
  (forall i, keeps_fields (body i)) -> forall i, keeps_fields (for_range n i body).
Proof.
  intros Hbody. induction n as [|n IH]; intros i; cbn [for_range].
  - apply (keeps_ret tt).
  - apply keeps_bind; [apply Hbody | intros _; apply IH].
Qed.

(** The query assigns none of the table's own fields. *)
Lemma get_keeps_fields : keeps_fields get_results_so_far.
Proof.
  unfold get_results_so_far.
  apply keeps_get_self. intros ct.
  apply keeps_bind; [apply keeps_py_copy | intros tmp].
  apply keeps_get_self. intros ct'.
  apply keeps_bind; [|intros _; apply keeps_ret].
  destruct (negb _); [|apply keeps_ret].
  apply keeps_bind; [apply keeps_on_stats | intros this_result].
  apply keeps_bind; [apply keeps_py_len | intros n].
  apply keeps_for_range. intros i. apply keeps_tag_and_append.
Qed.

(** What [dump_one_result] does to the own fields: nothing when the inner
    accumulator refuses the result; otherwise the count goes up by one, and
    the threshold doubles when the count reaches it, even if the snapshot
    fails afterwards. *)
Lemma dump_fields (x : float) (σ : ConvergenceTable.t Inner * heap) :
  own_fields (fst (snd (dump_one_result x σ))) = own_fields (fst σ) \/
  own_fields (fst (snd (dump_one_result x σ))) =
    (results_so_far (fst σ),
     (if paths_done (fst σ) + 1 =? stopping_point (fst σ)
      then stopping_point (fst σ) * 2 else stopping_point (fst σ)),
     paths_done (fst σ) + 1).
Proof.
  destruct σ as [ct h]. unfold dump_one_result. rewrite bind_run.
  pose proof (keeps_on_stats (StatisticsMC.dump_one_result x) (ct, h)) as H1.
  destruct (on_stats (StatisticsMC.dump_one_result x) (ct, h)) as [[u|e] [ct1 h1]];
    cbn [fst snd] in *; [|left; exact H1].
  right.
  assert (Hk : keeps_fields
                 (this_result ← on_stats StatisticsMC.get_results_so_far;
                  n ← py_len this_result;
                  for_range n 0 (fun i =>
                    self ← get_self;
                    tag_and_append this_result (results_so_far self) i))).
  { apply keeps_bind; [apply keeps_on_stats | intros this_result].
    apply keeps_bind; [apply keeps_py_len | intros n].
    apply keeps_for_range. intros i. apply keeps_get_self. intros ct'.
    apply keeps_tag_and_append. }
  unfold mbind, M_bind, bind, get_self, put_self.
  cbn [fst snd paths_done stopping_point stats results_so_far].
  injection H1 as Hrs Hsp Hpd. rewrite Hrs, Hsp, Hpd.
  destruct (paths_done ct + 1 =? stopping_point ct); [|reflexivity].
  exact (Hk (mk (stats ct1) (results_so_far ct) (math_ceil (stopping_point ct * 2))
                (paths_done ct + 1), h1)).
Qed.

Lemma log2_step (n : Z) :
  0 <= n ->
  (if n + 1 =? 2 ^ (Z.log2 n + 1) then 2 ^ (Z.log2 n + 1) * 2 else 2 ^ (Z.log2 n + 1))
  = 2 ^ (Z.log2 (n + 1) + 1).
Proof.
  intros Hn. destruct (Z.eq_dec n 0) as [->|Hn0]; [reflexivity|].
  pose proof (Z.log2_spec n ltac:(lia)) as [Hlo Hhi].
  pose proof (Z.log2_nonneg n) as Hnn.
  replace (Z.succ (Z.log2 n)) with (Z.log2 n + 1) in Hhi by lia.
  destruct (Z.eqb_spec (n + 1) (2 ^ (Z.log2 n + 1))) as [E|E].
  - rewrite E, Z.log2_pow2 by lia. rewrite (Z.pow_add_r 2 (Z.log2 n + 1) 1) by lia.
    reflexivity.
  - rewrite (Z.log2_unique (n + 1) (Z.log2 n)); [reflexivity | lia |].
    replace (Z.succ (Z.log2 n)) with (Z.log2 n + 1) by lia. lia.
Qed.

(** Whatever the inner accumulator is and does, and whatever happens to the
    store, the threshold of a table is the least power of two above its count
    of paths, and not below 2: [stopping_point = 2 ^ (log2(paths_done) + 1)],
    with [log2(0) = 0].  So [paths_done < stopping_point] in every state, and
    the test [paths_done != stopping_point] of the query never fails. *)
Theorem threshold_above_count (σ : ConvergenceTable.t Inner * heap) :
  reachable σ ->
  0 <= paths_done (fst σ) /\
  stopping_point (fst σ) = 2 ^ (Z.log2 (paths_done (fst σ)) + 1) /\
  paths_done (fst σ) < stopping_point (fst σ).
Proof.
  intros Hreach.
  assert (Hinv : 0 <= paths_done (fst σ) /\
                 stopping_point (fst σ) = 2 ^ (Z.log2 (paths_done (fst σ)) + 1)).
  { induction Hreach as [st h0 | σ x _ [IH1 IH2] | σ _ IH | σ st h _ IH].
    - cbn. split; [lia | reflexivity].
    - destruct (dump_fields x σ) as [E|E]; injection E as _ Hsp Hpd;
        rewrite Hsp, Hpd; [auto|].
      split; [lia|]. rewrite IH2. apply log2_step. exact IH1.
    - pose proof (get_keeps_fields σ) as E. injection E as _ Hsp Hpd.
      rewrite Hsp, Hpd. exact IH.
    - exact IH. }
  destruct Hinv as [H0 Hsp]. repeat split; [exact H0 | exact Hsp |].
  rewrite Hsp. destruct (Z.eq_dec (paths_done (fst σ)) 0) as [->|Hne]; [reflexivity|].
  pose proof (Z.log2_spec (paths_done (fst σ)) ltac:(lia)) as [_ Hhi].
  replace (Z.succ (Z.log2 (paths_done (fst σ))))
    with (Z.log2 (paths_done (fst σ)) + 1) in Hhi by lia.
  exact Hhi.
Qed.

End AnyTableFacts.
End AnyTableFacts.

Lemma threshold_above_count_witness :
  let σ := snd (ConvergenceTable.dump_one_result 1
                  (ConvergenceTable.mk StatisticsMean.init (PyRef 0%nat) 2 0, [[]])) in
  0 <= ConvergenceTable.paths_done (fst σ) /\
  ConvergenceTable.stopping_point (fst σ) =
    2 ^ (Z.log2 (ConvergenceTable.paths_done (fst σ)) + 1) /\
  ConvergenceTable.paths_done (fst σ) < ConvergenceTable.stopping_point (fst σ).
Proof.
  exact (AnyTableFacts.threshold_above_count _
           (AnyTable.reach_dump _ 1 (AnyTable.reach_new StatisticsMean.init []))).
Defined.

(** ** The record of a table over a mean *)

Module TableRecordFacts.
Import ConvergenceTable TableStates ConvergenceTableFacts.

Lemma feed_inv (ws : list float) :
  forall (σ : table * heap) (rows : list (list pyval)),
    table_inv σ rows ->
    exists σ' more,
      feed ws σ = (Ok tt, σ') /\
      table_inv σ' (rows ++ more) /\
      paths_done (fst σ') = paths_done (fst σ) + Z.of_nat (length ws) /\
      results_so_far (fst σ') = results_so_far (fst σ).
Proof.
  induction ws as [|x ws IH]; intros σ rows Hinv.
  - exists σ, []. rewrite app_nil_r. cbn. repeat split; [exact Hinv | lia].
  - rewrite feed_cons.
    change (@StatisticsMC.dump_one_result table _ x σ) with (dump_one_result x σ).
    destruct (dump_inv x σ rows Hinv) as (h1 & -> & Hinv1).
    destruct (IH _ _ Hinv1) as (σ' & more & Hrun & Hinv' & Hpd & Hrs).
    cbn [fst dumped paths_done results_so_far] in Hpd, Hrs.
    unfold snapshot in Hinv'.
    destruct (paths_done (fst σ) + 1 =? stopping_point (fst σ)).
    + rewrite <- app_assoc in Hinv'. eexists σ', _. repeat split; eauto.
      cbn [length]. lia.
    + exists σ', more. repeat split; auto. cbn [length]. lia.
Qed.

(** The record of a table only grows.  In every state that the methods lead
    to, feeding any further results never raises, counts each of them, and
    leaves the rows that were on record as they were, cell by cell, at the
    front of the record: snapshots are added at the end and never rewritten. *)
Theorem record_only_grows (σ : table * heap) (ws : list float) :
  reachable σ ->
  exists rows more σ',
    read_rows (snd σ) (results_so_far (fst σ)) = Some rows /\
    feed ws σ = (Ok tt, σ') /\
    read_rows (snd σ') (results_so_far (fst σ')) = Some (rows ++ more) /\
    paths_done (fst σ') = paths_done (fst σ) + Z.of_nat (length ws).
Proof.
  intros Hreach. destruct (reachable_inv σ Hreach) as [rows Hinv].
  destruct (feed_inv ws σ rows Hinv) as (σ' & more & Hrun & Hinv' & Hpd & _).
  exists rows, more, σ'. repeat split; [| exact Hrun | | exact Hpd].
  - destruct Hinv as (? & Hrec & _). apply recorded_read. exact Hrec.
  - destruct Hinv' as (? & Hrec & _). apply recorded_read. exact Hrec.
Qed.

Lemma record_only_grows_witness :
  let σ := snd (dump_one_result 1 (new_table [])) in
  exists rows more σ',
    read_rows (snd σ) (results_so_far (fst σ)) = Some rows /\
    feed [3; 8]%float σ = (Ok tt, σ') /\
    read_rows (snd σ') (results_so_far (fst σ')) = Some (rows ++ more) /\
    paths_done (fst σ') = paths_done (fst σ) + Z.of_nat (length [3; 8]%float).
Proof.
  exact (record_only_grows _ [3; 8]%float (reach_dump _ 1 (reach_new []))).
Defined.

(** What a query hands out.  Once a result was fed, the list that
    [get_results_so_far] returns is a new object, and so is the live row in
    its last cell; but its other cells are the very references that the
    record holds, so the caller shares the recorded row objects with the
    table (what it appends to one of them is appended on the record).  The
    list that the inner accumulator returned stays behind in the store. *)
Theorem query_shares_recorded_rows (σ : table * heap) :
  reachable σ ->
  paths_done (fst σ) <> 0 ->
  exists refs,
    cells (snd σ) (results_so_far (fst σ)) = Some refs /\
    get_results_so_far σ =
    (Ok (PyRef (length (snd σ))),
     (fst σ,
      snd σ ++ [refs ++ [PyRef (S (length (snd σ)))];
                [PyFloat (mean_of (stats (fst σ))); PyInt (paths_done (fst σ))];
                [PyRef (S (length (snd σ)))]])).
Proof.
  intros Hreach Hpd. destruct (reachable_inv σ Hreach) as [rows (vs & Hrec & Hfed)].
  destruct σ as [ct h]. cbn [fst snd] in *.
  destruct (fed_inv_bounds _ _ _ Hfed) as [Hn Hb].
  destruct Hrec as (L & refs & Hrs & HL & _).
  destruct ct as [st rs sp pd]. cbn in Hrs, Hn, Hb, Hpd. subst rs.
  exists refs. split; [exact HL|].
  apply get_run_live; [cbn; lia | cbn; lia | exact HL].
Qed.

Lemma query_shares_recorded_rows_witness :
  let σ := snd (dump_one_result 3 (snd (dump_one_result 1 (new_table [])))) in
  exists refs,
    cells (snd σ) (results_so_far (fst σ)) = Some refs /\
    get_results_so_far σ =
    (Ok (PyRef (length (snd σ))),
     (fst σ,
      snd σ ++ [refs ++ [PyRef (S (length (snd σ)))];
                [PyFloat (mean_of (stats (fst σ))); PyInt (paths_done (fst σ))];
                [PyRef (S (length (snd σ)))]])).
Proof.
  apply (query_shares_recorded_rows _ (reach_dump _ 3 (reach_dump _ 1 (reach_new [])))).
  vm_compute. discriminate.
Defined.

End TableRecordFacts.

(** ** Outcomes of the simulation and of the prices *)

Section PricingFacts.
Import TableStates ConvergenceTableFacts.

Context {runtime : Runtime}.

Lemma path_values_fails (the_option : VanillaOption.t) (rv moved d : float)
    (e : exn) (k : nat) :
  forall (n : nat) (g : rng) (xs : list float),
    (k < n)%nat ->
    Forall2 (fun z x => path_value the_option rv moved d z = Ok x) (draws k g) xs ->
    path_value the_option rv moved d (fst (random_gauss (after_draws k g))) = Raise e ->
    path_values the_option rv moved d n g = (xs, Some e, after_draws (S k) g).
Proof.
  induction k as [|k IH]; intros [|n] g xs Hk Hxs He; try lia.
  - inversion Hxs; subst. cbn [path_values after_draws] in *. rewrite He. reflexivity.
  - cbn [draws] in Hxs. inversion Hxs as [|z x zs xs' Hx Hxs']; subst.
    cbn [after_draws] in He. cbn [path_values]. rewrite Hx.
    rewrite (IH n (snd (random_gauss g)) xs' ltac:(lia) Hxs' He). reflexivity.
Qed.

(** A failing path stops the simulation where it is.  When the computation
    before the loop succeeds, the first [k] paths have the values [xs] and
    path [k] raises [e] ([math.exp] out of range), [option_price] raises [e]
    having fed exactly the [k] values [xs] and drawn [k + 1] numbers: the
    accumulator is left half filled, not rolled back. *)
Theorem option_price_stops_at_failing_path {Vol Rate Gatherer : Type}
    `{Parameters Vol} `{Parameters Rate} `{StatisticsMC Gatherer}
    (the_option : VanillaOption.t) (spot : float) (vol : Vol) (r : Rate)
    (number_of_paths : Z) (seed : option Z) (g g' : Gatherer) (g0 : rng)
    (h h' : heap) (rv moved d : float) (k : nat) (xs : list float) (e : exn) :
  (k < Z.to_nat number_of_paths)%nat ->
  prologue the_option spot vol r = Ok (rv, moved, d) ->
  Forall2 (fun z x => path_value the_option rv moved d z = Ok x)
          (draws k (seeded seed g0)) xs ->
  path_value the_option rv moved d
    (fst (random_gauss (after_draws k (seeded seed g0)))) = Raise e ->
  feed xs (g, h) = (Ok tt, (g', h')) ->
  option_price the_option spot vol r number_of_paths seed ((g, g0), h) =
  (Raise e, ((g', after_draws (S k) (seeded seed g0)), h')).
Proof.
  intros Hk Hpro Hxs He Hfeed. rewrite option_price_run, Hpro.
  pose proof (paths_loop_run the_option rv moved d (Z.to_nat number_of_paths) 0
                g (seeded seed g0) h) as Hloop.
  rewrite (path_values_fails _ _ _ _ e k _ _ xs Hk Hxs He) in Hloop.
  cbn [fst snd] in Hloop. rewrite Hfeed in Hloop. exact Hloop.
Qed.

Lemma math_sqrt_negative (x : float) :
  (x <? 0)%float = true -> math_sqrt x = Raise ValueError.
Proof.
  intros Hx. unfold math_sqrt.
  destruct (FloatFacts.ltb_numbers _ _ Hx) as [Hn _]. rewrite Hn.
  assert (Hs : is_nan (sqrt x) = true).
  { destruct (is_nan (sqrt x)) eqn:E; [reflexivity|]. exfalso.
    apply FloatFacts.is_nan_false in E. apply E.
    rewrite FloatAxioms.sqrt_spec. rewrite FloatAxioms.ltb_spec in Hx.
    change (Prim2SF 0) with (S754_zero false) in Hx. unfold SFltb in Hx.
    destruct (Prim2SF x) as [s|s| |s m ex]; cbn in Hx; try discriminate;
      destruct s; try discriminate; reflexivity. }
  rewrite Hs. reflexivity.
Qed.

(** A negative variance is met before anything else is done.  Whenever
    [vol.integral_square(0, expiry)] is below zero, [option_price] raises the
    ValueError of [math.sqrt]: nothing is fed, no number is drawn, and only
    the seed, if one is given, has been applied. *)
Theorem option_price_negative_variance {Vol Rate Gatherer : Type}
    `{Parameters Vol} `{Parameters Rate} `{StatisticsMC Gatherer}
    (the_option : VanillaOption.t) (spot : float) (vol : Vol) (r : Rate)
    (number_of_paths : Z) (seed : option Z) (g : Gatherer) (g0 : rng) (h : heap) :
  (integral_square vol 0 (VanillaOption.expiry the_option) <? 0)%float = true ->
  option_price the_option spot vol r number_of_paths seed ((g, g0), h) =
  (Raise ValueError, ((g, seeded seed g0), h)).
Proof.
  intros Hv. rewrite option_price_run. unfold prologue, VanillaOption.get_expiry.
  rewrite (math_sqrt_negative _ Hv). reflexivity.
Qed.

(** The prices without paths.  With a number of paths that is zero or
    negative, and the computation before the loop succeeding,
    [call_price_stats] and [put_price_stats] return a table that was fed
    nothing, and [call_price] and [put_price] fail with the ZeroDivisionError
    of the query of that table (no IndexError: the subscript [[-1]] is not
    reached). *)
Theorem price_without_paths (strike expiry spot vol r : float)
    (number_of_paths : Z) (seed : option Z) (g0 : rng) (h0 : heap)
    (p : float * float * float) :
  number_of_paths <= 0 ->
  prologue (VanillaOption.mk expiry (PayOffCall strike)) spot
    (ParametersConstant.init vol) (ParametersConstant.init r) = Ok p ->
  call_price_stats strike expiry spot vol r number_of_paths seed (g0, h0) =
    (Ok (fst (new_table h0)), (seeded seed g0, snd (new_table h0))) /\
  put_price_stats strike expiry spot vol r number_of_paths seed (g0, h0) =
    (Ok (fst (new_table h0)), (seeded seed g0, snd (new_table h0))) /\
  call_price strike expiry spot vol r number_of_paths seed (g0, h0) =
    (Raise ZeroDivisionError, (seeded seed g0, h0 ++ [[]; []])) /\
  put_price strike expiry spot vol r number_of_paths seed (g0, h0) =
    (Raise ZeroDivisionError, (seeded seed g0, h0 ++ [[]; []])).
Proof.
  intros HN Hpro.
  assert (Hstats : forall pay_off,
            price_stats pay_off expiry spot vol r number_of_paths seed (g0, h0) =
            (Ok (fst (new_table h0)), (seeded seed g0, snd (new_table h0)))).
  { intros pay_off. rewrite price_stats_run.
    change (prologue (VanillaOption.mk expiry pay_off) spot
              (ParametersConstant.init vol) (ParametersConstant.init r))
      with (prologue (VanillaOption.mk expiry (PayOffCall strike)) spot
              (ParametersConstant.init vol) (ParametersConstant.init r)).
    rewrite Hpro. destruct p as [[rv moved] d].
    replace (Z.to_nat number_of_paths) with 0%nat by lia. reflexivity. }
  assert (Hprice : forall pay_off,
            (convergence_table ←
               price_stats pay_off expiry spot vol r number_of_paths seed;
             last_price convergence_table) (g0, h0) =
            (Raise ZeroDivisionError, (seeded seed g0, h0 ++ [[]; []]))).
  { intros pay_off. rewrite bind_run, Hstats. unfold last_price.
    rewrite bind_run. unfold with_local at 1, on_local at 1. cbn [fst snd new_table].
    change (@StatisticsMC.get_results_so_far table _) with
      (@ConvergenceTable.get_results_so_far StatisticsMean.t _).
    rewrite (get_run_empty StatisticsMean.init (length h0) 2 0 (h0 ++ [[]]) []);
      [ | lia | reflexivity | apply lookup_new_0 ].
    rewrite <- app_assoc. reflexivity. }
  repeat split.
  - apply (Hstats (PayOffCall strike)).
  - apply (Hstats (PayOffPut strike)).
  - apply (Hprice (PayOffCall strike)).
  - apply (Hprice (PayOffPut strike)).
Qed.

Lemma price_mean (pay_off : PayOff) (expiry spot vol r : float)
    (number_of_paths : Z) (seed : option Z) (g0 : rng) (h0 : heap)
    (rv moved d : float) (xs : list float) :
  0 < number_of_paths ->
  prologue (VanillaOption.mk expiry pay_off) spot
    (ParametersConstant.init vol) (ParametersConstant.init r) = Ok (rv, moved, d) ->
  Forall2 (fun z x => path_value (VanillaOption.mk expiry pay_off) rv moved d z = Ok x)
          (draws (Z.to_nat number_of_paths) (seeded seed g0)) xs ->
  exists h',
    (convergence_table ←
       price_stats pay_off expiry spot vol r number_of_paths seed;
     last_price convergence_table) (g0, h0) =
    (Ok (PyFloat (float_sum 0 xs / float_of_int number_of_paths)),
     (after_draws (Z.to_nat number_of_paths) (seeded seed g0), h')).
Proof.
  intros HN Hpro Hxs. rewrite bind_run, price_stats_run, Hpro.
  rewrite (path_values_defined _ _ _ _ _ _ _ Hxs). cbv zeta. cbn [fst snd].
  destruct (feed_table xs h0) as (ct & h & -> & Hinv & Hfed). cbn [fst snd].
  assert (Hlen : Z.of_nat (length xs) = number_of_paths).
  { apply Forall2_length in Hxs. rewrite draws_length in Hxs. lia. }
  destruct (last_price_run ct (after_draws (Z.to_nat number_of_paths) (seeded seed g0))
              h _ Hinv) as (h' & -> & _).
  { rewrite (fed_paths _ _ _ Hfed). lia. }
  exists h'. unfold mean_of. rewrite (fed_stats _ _ _ Hfed). cbn. rewrite Hlen.
  reflexivity.
Qed.

(** The prices are means.  For a number of paths [N > 0], when the
    computation before the loop succeeds and every path has a value,
    [call_price] returns the float [(x_1 + ... + x_N) / N], the sum taken from
    0.0 in the order of the draws, where [x_i] is the discounted call payoff of
    the i-th draw; [put_price] likewise with the put payoffs.  Both leave the
    random module [N] draws on. *)
Theorem price_is_mean (strike expiry spot vol r : float)
    (number_of_paths : Z) (seed : option Z) (g0 : rng) (h0 : heap)
    (rv moved d : float) (xs ys : list float) :
  0 < number_of_paths ->
  prologue (VanillaOption.mk expiry (PayOffCall strike)) spot
    (ParametersConstant.init vol) (ParametersConstant.init r) = Ok (rv, moved, d) ->
  Forall2 (fun z x =>
             path_value (VanillaOption.mk expiry (PayOffCall strike)) rv moved d z = Ok x)
          (draws (Z.to_nat number_of_paths) (seeded seed g0)) xs ->
  Forall2 (fun z y =>
             path_value (VanillaOption.mk expiry (PayOffPut strike)) rv moved d z = Ok y)
          (draws (Z.to_nat number_of_paths) (seeded seed g0)) ys ->
  (exists h',
     call_price strike expiry spot vol r number_of_paths seed (g0, h0) =
     (Ok (PyFloat (float_sum 0 xs / float_of_int number_of_paths)),
      (after_draws (Z.to_nat number_of_paths) (seeded seed g0), h'))) /\
  (exists h',
     put_price strike expiry spot vol r number_of_paths seed (g0, h0) =
     (Ok (PyFloat (float_sum 0 ys / float_of_int number_of_paths)),
      (after_draws (Z.to_nat number_of_paths) (seeded seed g0), h'))).
Proof.
  intros HN Hpro Hxs Hys. split.
  - exact (price_mean (PayOffCall strike) expiry spot vol r number_of_paths seed
             g0 h0 rv moved d xs HN Hpro Hxs).
  - exact (price_mean (PayOffPut strike) expiry spot vol r number_of_paths seed
             g0 h0 rv moved d ys HN Hpro Hys).
Qed.

End PricingFacts.

(** ** Signs of binary64 results *)

Module FloatSigns.

Lemma binary_round_aux_sign (sx : bool) (mx ex : Z) (lx : location) :
  sx = false -> not_negative (binary_round_aux prec emax sx mx ex lx).
Proof.
  intros ->. unfold binary_round_aux.
  destruct (shr_fexp prec emax mx ex lx) as [mrs' e'].
  destruct (shr_fexp prec emax _ e' loc_Exact) as [mrs'' e''].
  destruct (shr_m mrs'') as [|m|m]; cbn; auto.
  destruct (e'' <=? emax - prec); cbn; reflexivity.
Qed.

Lemma SFmul_not_negative (x y : spec_float) :
  not_negative x -> not_negative y -> not_negative (SFmul prec emax x y).
Proof.
  destruct x as [sx|sx| |sx mx ex], y as [sy|sy| |sy my ey]; cbn [SFmul not_negative];
    intros Hx Hy; subst; cbn; auto.
  apply binary_round_aux_sign. reflexivity.
Qed.

Lemma SFmul_square (x : spec_float) : not_negative (SFmul prec emax x x).
Proof.
  destruct x as [s|s| |s m e]; cbn [SFmul not_negative]; auto.
  - destruct s; reflexivity.
  - apply binary_round_aux_sign. destruct s; reflexivity.
Qed.

Lemma SFsub_zero (x : spec_float) :
  SFleb (S754_zero false) x = true ->
  not_negative (SFsub prec emax x (S754_zero false)).
Proof.
  destruct x as [s|s| |s m e]; cbn; try discriminate; destruct s; cbn;
    try discriminate; auto.
Qed.

Lemma shr_1_nonneg (mrs : shr_record) : 0 <= shr_m mrs -> 0 <= shr_m (shr_1 mrs).
Proof.
  destruct mrs as [m r s]. cbn. destruct m as [|[p|p|]|[p|p|]]; cbn; lia.
Qed.

Lemma iter_pos_nonneg (p : positive) :
  forall mrs, 0 <= shr_m mrs -> 0 <= shr_m (SpecFloat.iter_pos shr_1 p mrs).
Proof.
  induction p as [p IH|p IH|]; intros mrs Hm; cbn.
  - apply IH, IH, shr_1_nonneg, Hm.
  - apply IH, IH, Hm.
  - apply shr_1_nonneg, Hm.
Qed.

Lemma shr_fexp_nonneg (m e : Z) (l : location) :
  0 <= m -> 0 <= shr_m (fst (shr_fexp prec emax m e l)).
Proof.
  intros Hm. unfold shr_fexp, shr.
  assert (H0 : 0 <= shr_m (shr_record_of_loc m l))
    by (destruct l as [|[]]; exact Hm).
  destruct (fexp prec emax (Zdigits2 m + e) - e) as [|p|p]; cbn [fst];
    [exact H0 | apply iter_pos_nonneg; exact H0 | exact H0].
Qed.

Lemma round_nearest_even_nonneg (m : Z) (l : location) :
  0 <= m -> 0 <= round_nearest_even m l.
Proof.
  intros Hm. destruct l as [|[]]; cbn; try lia. destruct (Z.even m); lia.
Qed.

Lemma binary_round_aux_number (sx : bool) (mx ex : Z) (lx : location) :
  0 <= mx -> binary_round_aux prec emax sx mx ex lx <> S754_nan.
Proof.
  intros Hm. unfold binary_round_aux.
  pose proof (shr_fexp_nonneg mx ex lx Hm) as H1.
  destruct (shr_fexp prec emax mx ex lx) as [mrs' e']. cbn [fst] in H1.
  pose proof (shr_fexp_nonneg _ e' loc_Exact
                (round_nearest_even_nonneg _ (loc_of_shr_record mrs') H1)) as H2.
  destruct (shr_fexp prec emax _ e' loc_Exact) as [mrs'' e'']. cbn [fst] in H2.
  destruct (shr_m mrs'') as [|m|m]; [discriminate | | lia].
  destruct (e'' <=? emax - prec); discriminate.
Qed.

Lemma SFsqrt_number (x : spec_float) :
  not_negative x -> x <> S754_nan -> SFsqrt prec emax x <> S754_nan.
Proof.
  destruct x as [s|s| |s m e]; cbn [not_negative SFsqrt]; intros Hs Hn;
    try congruence; subst; try discriminate.
  unfold SFsqrt_core_binary.
  set (m' := match _ - _ with Z0 => _ | Zpos _ => _ | Zneg _ => _ end).
  pose proof (Z.sqrtrem_sqrt m') as Hq. pose proof (Z.sqrt_nonneg m') as Hnn.
  destruct (Z.sqrtrem m') as [q r]. cbn [fst] in Hq.
  apply binary_round_aux_number. lia.
Qed.

(** [math.sqrt] accepts every number that is not below zero. *)
Lemma math_sqrt_not_negative (x : float) :
  not_negative (Prim2SF x) -> exists r, math_sqrt x = Ok r.
Proof.
  intros Hx. unfold math_sqrt.
  destruct (is_nan x) eqn:En; [rewrite andb_false_r; eauto|].
  assert (Hs : is_nan (sqrt x) = false).
  { apply FloatFacts.is_nan_false. rewrite FloatAxioms.sqrt_spec.
    apply SFsqrt_number; [exact Hx | apply FloatFacts.is_nan_false; exact En]. }
  rewrite Hs. eauto.
Qed.

End FloatSigns.

(** With a constant volatility and an expiry that is not below zero,
    [option_price] never meets the ValueError of [math.sqrt]: the variance
    [(expiry - 0) * (vol * vol)] is a number that is not below zero, or a
    NaN, whatever [vol] is (negative, infinite or NaN as well), and its
    square root is taken without an exception. *)
Theorem variance_has_root (vol expiry : float) :
  (0 <=? expiry)%float = true ->
  exists root_variance,
    math_sqrt (integral_square (ParametersConstant.init vol) 0 expiry)
    = Ok root_variance.
Proof.
  intros He. apply FloatSigns.math_sqrt_not_negative.
  change (integral_square (ParametersConstant.init vol) 0 expiry)
    with ((expiry - 0) * (vol * vol))%float.
  rewrite FloatAxioms.mul_spec, FloatAxioms.sub_spec, FloatAxioms.mul_spec.
  apply FloatSigns.SFmul_not_negative.
  - change (Prim2SF 0) with (S754_zero false).
    apply FloatSigns.SFsub_zero. rewrite FloatAxioms.leb_spec in He. exact He.
  - apply FloatSigns.SFmul_square.
Qed.

Lemma variance_has_root_witness :
  exists root_variance,
    math_sqrt (integral_square (ParametersConstant.init (-0.25)) 0 4)
    = Ok root_variance.
Proof.
  apply (variance_has_root (-0.25) 4). reflexivity.
Defined.

(** ** Prices are not negative *)

Module PriceSigns.
Import FloatSigns.

Lemma plus_sign_not_negative (x : spec_float) : plus_sign x -> not_negative x.
Proof. destruct x; cbn; auto. Qed.

Lemma binary_round_aux_plus (mx ex : Z) (lx : location) :
  plus_sign (binary_round_aux prec emax false mx ex lx).
Proof.
  unfold binary_round_aux.
  destruct (shr_fexp prec emax mx ex lx) as [mrs' e'].
  destruct (shr_fexp prec emax _ e' loc_Exact) as [mrs'' e''].
  destruct (shr_m mrs'') as [|m|m]; cbn; auto.
  destruct (e'' <=? emax - prec); cbn; reflexivity.
Qed.

Lemma binary_round_plus (m : positive) (e : Z) :
  plus_sign (binary_round prec emax false m e).
Proof.
  unfold binary_round. destruct (shl_align m e _) as [mz ez].
  apply binary_round_aux_plus.
Qed.

Lemma binary_normalize_plus (m e : Z) :
  0 <= m -> plus_sign (binary_normalize prec emax m e false).
Proof.
  intros Hm. destruct m as [|p|p]; cbn [binary_normalize]; [reflexivity | | lia].
  apply binary_round_plus.
Qed.

Lemma SFadd_not_negative (x y : spec_float) :
  not_negative x -> not_negative y -> not_negative (SFadd prec emax x y).
Proof.
  destruct x as [sx|sx| |sx mx ex], y as [sy|sy| |sy my ey]; cbn [SFadd not_negative];
    intros Hx Hy; subst; cbn [not_negative]; auto.
  - destruct sx, sy; exact I.
  - cbn [cond_Zopp]. apply plus_sign_not_negative, binary_normalize_plus. lia.
Qed.

Lemma SFdiv_not_negative (x y : spec_float) :
  not_negative x -> plus_sign y -> not_negative (SFdiv prec emax x y).
Proof.
  destruct x as [sx|sx| |sx mx ex], y as [sy|sy| |sy my ey];
    cbn [SFdiv not_negative plus_sign];
    intros Hx Hy; subst; cbn [not_negative xorb]; auto.
  destruct (SFdiv_core_binary prec emax (Z.pos mx) ex (Z.pos my) ey) as [[mz ez] lz].
  apply binary_round_aux_sign. reflexivity.
Qed.

Lemma SFldexp_plus (x : spec_float) (e : Z) :
  plus_sign x -> plus_sign (SFldexp prec emax x e).
Proof.
  destruct x as [s|s| |s m ex]; cbn [SFldexp plus_sign]; auto.
  intros ->. apply binary_round_plus.
Qed.

Lemma SF2Prim_plus (y : spec_float) :
  plus_sign y -> plus_sign (Prim2SF (SF2Prim y)).
Proof.
  destruct y as [s|s| |s m e]; cbn [plus_sign SF2Prim].
  - intros ->. reflexivity.
  - intros ->. reflexivity.
  - intros _. exact I.
  - intros ->. rewrite Z_ldexp_spec. apply SFldexp_plus.
    rewrite FloatAxioms.of_uint63_spec. apply binary_normalize_plus.
    apply Uint63.to_Z_bounded.
Qed.

Lemma float_of_int_plus (n : Z) :
  0 <= n -> plus_sign (Prim2SF (float_of_int n)).
Proof.
  intros Hn. apply SF2Prim_plus, binary_normalize_plus, Hn.
Qed.

Lemma float_of_int_not_negative (n : Z) :
  0 <= n -> not_negative (Prim2SF (float_of_int n)).
Proof.
  intros Hn. apply plus_sign_not_negative, float_of_int_plus, Hn.
Qed.

Lemma not_negative_ltb (x : float) :
  not_negative (Prim2SF x) <-> (x <? 0)%float = false.
Proof.
  rewrite FloatAxioms.ltb_spec. change (Prim2SF 0) with (S754_zero false).
  unfold SFltb. destruct (Prim2SF x) as [s|s| |s m e]; cbn; try tauto;
    destruct s; cbn; split; intros; try reflexivity; try discriminate; exact I.
Qed.

(** No payoff is below zero. *)
Lemma calc_not_negative (pay_off : PayOff) (spot d : float) :
  exists f, float_mul d (calc pay_off spot) = Ok (d * f)%float /\
            not_negative (Prim2SF f).
Proof.
  assert (Hmax : forall x, exists f, float_mul d (max_0 x) = Ok (d * f)%float /\
                                     not_negative (Prim2SF f)).
  { intros x. unfold max_0. destruct (x <? 0)%float eqn:E.
    - eexists. split; [reflexivity|]. apply float_of_int_not_negative. lia.
    - eexists. split; [reflexivity|]. apply not_negative_ltb. exact E. }
  destruct pay_off as [strike|strike|lower upper]; cbn [calc]; try apply Hmax.
  destruct (spot <=? lower)%float; [|destruct (upper <=? spot)%float];
    (eexists; split; [reflexivity|]; apply float_of_int_not_negative; lia).
Qed.

Section Prices.
Import TableStates ConvergenceTableFacts.

Context {runtime : Runtime}.

Lemma path_values_not_negative (the_option : VanillaOption.t) (rv moved d : float) :
  not_negative (Prim2SF d) ->
  forall (n : nat) (g : rng),
    Forall (fun x => not_negative (Prim2SF x))
           (fst (fst (path_values the_option rv moved d n g))).
Proof.
  intros Hd. induction n as [|n IH]; intros g; cbn [path_values]; [constructor|].
  unfold path_value at 1.
  destruct (math_exp (rv * fst (random_gauss g))) as [e|e]; [|constructor].
  unfold VanillaOption.calc_pay_off.
  destruct (calc_not_negative (VanillaOption.pay_off the_option) (moved * e) d)
    as (f & -> & Hf).
  specialize (IH (snd (random_gauss g))).
  destruct (path_values the_option rv moved d n (snd (random_gauss g))) as [[vs err] g''].
  cbn [fst] in *. constructor; [|exact IH].
  rewrite FloatAxioms.mul_spec. apply SFmul_not_negative; assumption.
Qed.

Lemma float_sum_not_negative (xs : list float) :
  forall acc, not_negative (Prim2SF acc) ->
    Forall (fun x => not_negative (Prim2SF x)) xs ->
    not_negative (Prim2SF (float_sum acc xs)).
Proof.
  induction xs as [|x xs IH]; intros acc Hacc Hxs; [exact Hacc|].
  inversion Hxs; subst. cbn [float_sum fold_left]. apply IH; [|assumption].
  rewrite FloatAxioms.add_spec. apply SFadd_not_negative; assumption.
Qed.

(** What [last_price] returns when it returns. *)
Lemma last_price_value (ct : table) (g : rng) (h : heap) (rows : list (list pyval))
    (v : pyval) (σ : rng * heap) :
  table_inv (ct, h) rows ->
  last_price ct (g, h) = (Ok v, σ) ->
  ConvergenceTable.paths_done ct <> 0 /\
  v = PyFloat (mean_of (ConvergenceTable.stats ct)).
Proof.
  intros Hinv Hrun.
  destruct (Z.eq_dec (ConvergenceTable.paths_done ct) 0) as [E|E].
  - exfalso. destruct (get_inv _ _ Hinv) as (r & new & Hget & Hobs & _).
    pose proof Hinv as (vs & _ & Hfed).
    destruct (fed_inv_bounds _ _ _ Hfed) as [Hn _]. cbn [fst snd] in *.
    unfold observe, answer in Hobs. rewrite Hget, Hn, E in Hobs. cbn in Hobs.
    destruct r as [w|e]; [discriminate|].
    unfold last_price in Hrun. rewrite bind_run in Hrun.
    unfold with_local at 1, on_local at 1 in Hrun. cbn [fst snd] in Hrun.
    change (@StatisticsMC.get_results_so_far table _ (ct, h))
      with (ConvergenceTable.get_results_so_far (ct, h)) in Hrun.
    rewrite Hget in Hrun. discriminate.
  - split; [exact E|].
    destruct (last_price_run ct g h rows Hinv E) as (h' & Hrun' & _).
    rewrite Hrun' in Hrun. congruence.
Qed.

Lemma price_value (pay_off : PayOff) (expiry spot vol r : float)
    (number_of_paths : Z) (seed : option Z) (g0 : rng) (h0 : heap)
    (v : pyval) (σ : rng * heap) :
  exp_not_negative ->
  (convergence_table ←
     price_stats pay_off expiry spot vol r number_of_paths seed;
   last_price convergence_table) (g0, h0) = (Ok v, σ) ->
  exists p, v = PyFloat p /\ (p <? 0)%float = false.
Proof.
  intros Hexp Hrun. rewrite bind_run, price_stats_run in Hrun.
  unfold prologue in Hrun.
  destruct (math_sqrt _) as [rv|e]; [|discriminate].
  destruct (math_exp (_ + _)) as [e1|e]; [|discriminate].
  destruct (math_exp (- _)) as [d|e] eqn:Hd; [|discriminate].
  cbv zeta in Hrun.
  assert (Hdn : not_negative (Prim2SF d)) by (apply not_negative_ltb, (Hexp _ _ Hd)).
  pose proof (path_values_not_negative (VanillaOption.mk expiry pay_off)
                rv (spot * e1) d Hdn (Z.to_nat number_of_paths) (seeded seed g0)) as Hxs.
  destruct (path_values _ rv (spot * e1) d _ _) as [[xs err] g'].
  cbn [fst snd] in Hrun, Hxs.
  destruct (feed_table xs h0) as (ct & h & Hfeed & Hinv & Hfed).
  rewrite Hfeed in Hrun. cbn [fst snd] in Hrun.
  destruct err as [e|]; [discriminate|].
  destruct (last_price_value ct g' h _ v σ Hinv Hrun) as [Hpd ->].
  eexists. split; [reflexivity|]. apply not_negative_ltb.
  unfold mean_of. rewrite (fed_stats _ _ _ Hfed). cbn.
  rewrite FloatAxioms.div_spec. apply SFdiv_not_negative.
  - apply float_sum_not_negative; [exact I | exact Hxs].
  - apply float_of_int_plus. lia.
Qed.

(** Prices are never negative.  Whenever [call_price] or [put_price] returns,
    it returns a float that is not below zero (it may be a NaN), provided
    that [math.exp] gives no number below zero: no payoff is negative, the
    discount factor is not, and sums and quotients of such numbers are not. *)
Theorem price_not_negative (strike expiry spot vol r : float)
    (number_of_paths : Z) (seed : option Z) (g0 : rng) (h0 : heap)
    (v : pyval) (σ : rng * heap) :
  exp_not_negative ->
  call_price strike expiry spot vol r number_of_paths seed (g0, h0) = (Ok v, σ) \/
  put_price strike expiry spot vol r number_of_paths seed (g0, h0) = (Ok v, σ) ->
  exists p, v = PyFloat p /\ (p <? 0)%float = false.
Proof.
  intros Hexp [Hrun|Hrun].
  - exact (price_value (PayOffCall strike) expiry spot vol r number_of_paths seed
             g0 h0 v σ Hexp Hrun).
  - exact (price_value (PayOffPut strike) expiry spot vol r number_of_paths seed
             g0 h0 v σ Hexp Hrun).
Qed.

End Prices.

Lemma tape_exp_not_negative : exp_not_negative (runtime := tape_runtime).
Proof.
  intros x y. cbn. unfold exp_at_zero.
  destruct (x =? 0)%float; [intros [= <-]; reflexivity | discriminate].
Defined.

Lemma price_not_negative_witness :
  exists p, PyFloat 15 = PyFloat p /\ (p <? 0)%float = false.
Proof.
  apply (price_not_negative (runtime := tape_runtime)
           15 0 30 0.25 0.0625 2 (Some 1234) [] [] (PyFloat 15)
           (snd (call_price (runtime := tape_runtime)
                   15 0 30 0.25 0.0625 2 (Some 1234) ([], [])))).
  - exact tape_exp_not_negative.
  - left. vm_compute. reflexivity.
Defined.

End PriceSigns.

(** ** Continuing a simulation *)

Section ContinuationFacts.

Context {runtime : Runtime}.
Context {Gatherer : Type} `{StatisticsMC Gatherer}.

(** The loop does not look at its index. *)
Lemma paths_loop_index (the_option : VanillaOption.t) (rv moved d : float) (n : nat) :
  forall (i j : nat) (σ : (Gatherer * rng) * heap),
    paths_loop the_option rv moved d n i σ = paths_loop the_option rv moved d n j σ.
Proof.
  induction n as [|n IH]; intros i j [[g g0] h]; [reflexivity|].
  rewrite !paths_loop_S.
  destruct (path_value the_option rv moved d (fst (random_gauss g0))) as [x|e];
    [|reflexivity].
  destruct (StatisticsMC.dump_one_result x (g, h)) as [[u|e] [g' h']]; [|reflexivity].
  apply IH.
Qed.

Lemma paths_loop_app (the_option : VanillaOption.t) (rv moved d : float) (n1 n2 : nat) :
  forall (i : nat) (σ : (Gatherer * rng) * heap),
    paths_loop the_option rv moved d (n1 + n2) i σ =
    match paths_loop the_option rv moved d n1 i σ with
    | (Ok _, σ1) => paths_loop the_option rv moved d n2 i σ1
    | (Raise e, σ1) => (Raise e, σ1)
    end.
Proof.
  induction n1 as [|n1 IH]; intros i [[g g0] h]; [reflexivity|].
  change (S n1 + n2)%nat with (S (n1 + n2)). rewrite !paths_loop_S.
  destruct (path_value the_option rv moved d (fst (random_gauss g0))) as [x|e];
    [|reflexivity].
  destruct (StatisticsMC.dump_one_result x (g, h)) as [[u|e] [g' h']]; [|reflexivity].
  rewrite IH.
  destruct (paths_loop the_option rv moved d n1 (S i) ((g', snd (random_gauss g0)), h'))
    as [[u'|e] σ1]; [|reflexivity].
  apply paths_loop_index.
Qed.

(** A simulation can be continued.  [option_price] neither resets the
    accumulator nor, without a seed, the random module: after a call with
    [N1] paths that returned, a second call with the same option, spot,
    volatility and rate, [N2] paths and no seed, on the same accumulator,
    ends exactly as one call with [N1 + N2] paths would have: the same
    outcome, the same accumulator, the same store, the same state of the
    random module. *)
Theorem option_price_continues {Vol Rate : Type}
    `{Parameters Vol} `{Parameters Rate}
    (the_option : VanillaOption.t) (spot : float) (vol : Vol) (r : Rate)
    (N1 N2 : Z) (seed : option Z) (g : Gatherer) (g0 : rng) (h : heap)
    (σ1 : (Gatherer * rng) * heap) :
  0 <= N1 -> 0 <= N2 ->
  option_price the_option spot vol r N1 seed ((g, g0), h) = (Ok tt, σ1) ->
  option_price the_option spot vol r N2 None σ1 =
  option_price the_option spot vol r (N1 + N2) seed ((g, g0), h).
Proof.
  intros HN1 HN2 Hrun. destruct σ1 as [[g1 g1'] h1].
  rewrite option_price_run in Hrun. rewrite !option_price_run.
  destruct (prologue the_option spot vol r) as [[[rv moved] d]|e]; [|discriminate].
  replace (Z.to_nat (N1 + N2)) with (Z.to_nat N1 + Z.to_nat N2)%nat by lia.
  rewrite paths_loop_app, Hrun. reflexivity.
Qed.

End ContinuationFacts.

Lemma option_price_continues_witness :
  option_price (runtime := tape_runtime)
    (VanillaOption.mk 0 (PayOffCall 15)) 30
    (ParametersConstant.init 0.25) (ParametersConstant.init 0.0625)
    2 None ((StatisticsMean.mk 15 1, [0.5; -1.25; 2]%float), []) =
  option_price (runtime := tape_runtime)
    (VanillaOption.mk 0 (PayOffCall 15)) 30
    (ParametersConstant.init 0.25) (ParametersConstant.init 0.0625)
    (1 + 2) (Some 1234) ((StatisticsMean.init, []), []).
Proof.
  apply (option_price_continues (runtime := tape_runtime)
           (VanillaOption.mk 0 (PayOffCall 15)) 30
           (ParametersConstant.init 0.25) (ParametersConstant.init 0.0625)
           1 2 (Some 1234) StatisticsMean.init [] []
           ((StatisticsMean.mk 15 1, [0.5; -1.25; 2]%float), [])).
  - lia.
  - lia.
  - reflexivity.
Defined.

(** ** A spot that is not a number *)

Module NanFacts.

Lemma mul_nan_l (y : float) : (nan * y)%float = nan.
Proof. apply Prim2SF_inj. rewrite FloatAxioms.mul_spec. reflexivity. Qed.

Lemma mul_nan_r (x : float) : (x * nan)%float = nan.
Proof.
  apply Prim2SF_inj. rewrite FloatAxioms.mul_spec.
  change (Prim2SF nan) with S754_nan. destruct (Prim2SF x); reflexivity.
Qed.

Lemma sub_nan_l (y : float) : (nan - y)%float = nan.
Proof. apply Prim2SF_inj. rewrite FloatAxioms.sub_spec. reflexivity. Qed.

Lemma sub_nan_r (x : float) : (x - nan)%float = nan.
Proof.
  apply Prim2SF_inj. rewrite FloatAxioms.sub_spec.
  change (Prim2SF nan) with S754_nan. destruct (Prim2SF x); reflexivity.
Qed.

Lemma add_nan_r (x : float) : (x + nan)%float = nan.
Proof.
  apply Prim2SF_inj. rewrite FloatAxioms.add_spec.
  change (Prim2SF nan) with S754_nan. destruct (Prim2SF x); reflexivity.
Qed.

Lemma div_nan_l (y : float) : (nan / y)%float = nan.
Proof. apply Prim2SF_inj. rewrite FloatAxioms.div_spec. reflexivity. Qed.

Lemma float_sum_nan (n : nat) (acc : float) :
  float_sum acc (repeat nan (S n)) = nan.
Proof.
  revert acc. induction n as [|n IH]; intros acc.
  - cbn. apply add_nan_r.
  - change (float_sum acc (repeat nan (S (S n))))
      with (float_sum (acc + nan) (repeat nan (S n))).
    apply IH.
Qed.

Section NanSpot.

Context {runtime : Runtime}.

Lemma nan_path_values (pay_off : PayOff) (expiry rv d : float) :
  (forall e, float_mul d (calc pay_off (nan * e)) = Ok nan) ->
  forall zs : list float,
    Forall (fun z => exists e, math_exp (rv * z) = Ok e) zs ->
    Forall2 (fun z x => path_value (VanillaOption.mk expiry pay_off) rv nan d z = Ok x)
            zs (repeat nan (length zs)).
Proof.
  intros Hpay. induction 1 as [|z zs [e He] _ IH]; cbn [length repeat]; constructor.
  - unfold path_value. rewrite He. apply Hpay.
  - exact IH.
Qed.

Lemma nan_call (strike d e : float) :
  float_mul d (calc (PayOffCall strike) (nan * e)) = Ok nan.
Proof.
  cbn [calc]. rewrite mul_nan_l, sub_nan_l. cbn. rewrite mul_nan_r. reflexivity.
Qed.

Lemma nan_put (strike d e : float) :
  float_mul d (calc (PayOffPut strike) (nan * e)) = Ok nan.
Proof.
  cbn [calc]. rewrite mul_nan_l, sub_nan_r. cbn. rewrite mul_nan_r. reflexivity.
Qed.

Lemma nan_price (pay_off : PayOff) (expiry vol r : float)
    (number_of_paths : Z) (seed : option Z) (g0 : rng) (h0 : heap)
    (rv moved d : float) :
  (forall e, float_mul d (calc pay_off (nan * e)) = Ok nan) ->
  0 < number_of_paths ->
  prologue (VanillaOption.mk expiry pay_off) nan
    (ParametersConstant.init vol) (ParametersConstant.init r) = Ok (rv, moved, d) ->
  Forall (fun z => exists e, math_exp (rv * z) = Ok e)
         (draws (Z.to_nat number_of_paths) (seeded seed g0)) ->
  exists h',
    (convergence_table ←
       price_stats pay_off expiry nan vol r number_of_paths seed;
     last_price convergence_table) (g0, h0) =
    (Ok (PyFloat nan), (after_draws (Z.to_nat number_of_paths) (seeded seed g0), h')).
Proof.
  intros Hpay HN Hpro Hexp.
  assert (Hmoved : moved = nan).
  { unfold prologue in Hpro.
    destruct (math_sqrt _); [|discriminate].
    destruct (math_exp (_ + _)); [|discriminate].
    destruct (math_exp (- _)); [|discriminate].
    injection Hpro as _ <- _. apply mul_nan_l. }
  subst moved.
  pose proof (nan_path_values pay_off expiry rv d Hpay _ Hexp) as Hxs.
  rewrite draws_length in Hxs.
  destruct (price_mean pay_off expiry nan vol r number_of_paths seed g0 h0 rv nan d
              _ HN Hpro Hxs) as (h' & Hrun).
  exists h'. rewrite Hrun.
  destruct (Z.to_nat number_of_paths) as [|n] eqn:E; [lia|].
  rewrite float_sum_nan, div_nan_l. reflexivity.
Qed.

(** A spot that is not a number is not rejected: it prices as NaN.  For a
    number of paths [N > 0], when the computation before the loop succeeds and
    [math.exp] returns on every path, [call_price] and [put_price] called
    with a NaN spot raise nothing and return NaN, after [N] draws. *)
Theorem nan_spot_nan_price (strike expiry vol r : float)
    (number_of_paths : Z) (seed : option Z) (g0 : rng) (h0 : heap)
    (rv moved d : float) :
  0 < number_of_paths ->
  prologue (VanillaOption.mk expiry (PayOffCall strike)) nan
    (ParametersConstant.init vol) (ParametersConstant.init r) = Ok (rv, moved, d) ->
  Forall (fun z => exists e, math_exp (rv * z) = Ok e)
         (draws (Z.to_nat number_of_paths) (seeded seed g0)) ->
  (exists h',
     call_price strike expiry nan vol r number_of_paths seed (g0, h0) =
     (Ok (PyFloat nan), (after_draws (Z.to_nat number_of_paths) (seeded seed g0), h'))) /\
  (exists h',
     put_price strike expiry nan vol r number_of_paths seed (g0, h0) =
     (Ok (PyFloat nan), (after_draws (Z.to_nat number_of_paths) (seeded seed g0), h'))).
Proof.
  intros HN Hpro Hexp. split.
  - exact (nan_price (PayOffCall strike) expiry vol r number_of_paths seed g0 h0
             rv moved d (nan_call strike d) HN Hpro Hexp).
  - exact (nan_price (PayOffPut strike) expiry vol r number_of_paths seed g0 h0
             rv moved d (nan_put strike d) HN Hpro Hexp).
Qed.

End NanSpot.

Lemma nan_spot_nan_price_witness :
  (exists h',
     call_price (runtime := tape_runtime) 15 0 nan 0.25 0.0625 2 (Some 1234) ([], []) =
     (Ok (PyFloat nan), ([-1.25; 2]%float, h'))) /\
  (exists h',
     put_price (runtime := tape_runtime) 15 0 nan 0.25 0.0625 2 (Some 1234) ([], []) =
     (Ok (PyFloat nan), ([-1.25; 2]%float, h'))).
Proof.
  apply (nan_spot_nan_price (runtime := tape_runtime)
           15 0 0.25 0.0625 2 (Some 1234) [] [] 0 nan 1).
  - lia.
  - reflexivity.
  - repeat constructor; exists 1%float; reflexivity.
Defined.

End NanFacts.

(** ** Concrete runs of the pricing functions *)

Lemma option_price_stops_at_failing_path_witness :
  option_price (runtime := tape_runtime)
    (VanillaOption.mk 0 (PayOffCall 15)) 30
    (ParametersConstant.init 0.25) (ParametersConstant.init 0.0625)
    3 None ((StatisticsMean.init, [0.5; infinity; 2]%float), []) =
  (Raise OverflowError, ((StatisticsMean.mk 15 1, [2]%float), [])).
Proof.
  apply (option_price_stops_at_failing_path (runtime := tape_runtime)
           (VanillaOption.mk 0 (PayOffCall 15)) 30
           (ParametersConstant.init 0.25) (ParametersConstant.init 0.0625)
           3 None StatisticsMean.init (StatisticsMean.mk 15 1)
           [0.5; infinity; 2]%float [] [] 0 30 1 1 [15]%float OverflowError).
  - vm_compute. lia.
  - reflexivity.
  - repeat constructor.
  - reflexivity.
  - reflexivity.
Defined.

Lemma option_price_negative_variance_witness :
  option_price (runtime := tape_runtime)
    (VanillaOption.mk (-1) (PayOffPut 15)) 30
    (ParametersConstant.init 0.25) (ParametersConstant.init 0.0625)
    2 (Some 1234) ((StatisticsMean.mk 7 1, []), []) =
  (Raise ValueError, ((StatisticsMean.mk 7 1, tape_seed 1234), [])).
Proof.
  apply (option_price_negative_variance (runtime := tape_runtime)
           (VanillaOption.mk (-1) (PayOffPut 15)) 30
           (ParametersConstant.init 0.25) (ParametersConstant.init 0.0625)
           2 (Some 1234) (StatisticsMean.mk 7 1) [] []).
  reflexivity.
Defined.

Lemma price_without_paths_witness :
  call_price_stats (runtime := tape_runtime) 15 0 30 0.25 0.0625 (-3) None ([], []) =
    (Ok (fst (TableStates.new_table [])), ([], snd (TableStates.new_table []))) /\
  put_price_stats (runtime := tape_runtime) 15 0 30 0.25 0.0625 (-3) None ([], []) =
    (Ok (fst (TableStates.new_table [])), ([], snd (TableStates.new_table []))) /\
  call_price (runtime := tape_runtime) 15 0 30 0.25 0.0625 (-3) None ([], []) =
    (Raise ZeroDivisionError, ([], [[]; []])) /\
  put_price (runtime := tape_runtime) 15 0 30 0.25 0.0625 (-3) None ([], []) =
    (Raise ZeroDivisionError, ([], [[]; []])).
Proof.
  apply (price_without_paths (runtime := tape_runtime)
           15 0 30 0.25 0.0625 (-3) None [] [] (0, 30, 1)%float).
  - lia.
  - reflexivity.
Defined.

Lemma price_is_mean_witness :
  (exists h',
     call_price (runtime := tape_runtime) 15 0 30 0.25 0.0625 2 (Some 1234) ([], []) =
     (Ok (PyFloat (float_sum 0 [15; 15]%float / float_of_int 2)), ([-1.25; 2]%float, h'))) /\
  (exists h',
     put_price (runtime := tape_runtime) 15 0 30 0.25 0.0625 2 (Some 1234) ([], []) =
     (Ok (PyFloat (float_sum 0 [0; 0]%float / float_of_int 2)), ([-1.25; 2]%float, h'))).
Proof.
  apply (price_is_mean (runtime := tape_runtime)
           15 0 30 0.25 0.0625 2 (Some 1234) [] [] 0 30 1 [15; 15]%float [0; 0]%float).
  - lia.
  - reflexivity.
  - repeat constructor.
  - repeat constructor.
Defined.
